(** * The function-calling adapter and the run loop of the assistant client

    A shallow embedding of [src/Assistant/openai_function_helper.py] and of
    the parts of [src/Assistant/openai_assistant_helper.py] that build the
    tool outputs, render a message and poll a run.

    Python objects are records, dictionaries keyed by strings are [gmap
    string _], code that can raise returns an [outcome], and what the code
    asks of the interpreter or of the remote service ([traceback.format_exc],
    [json.loads], the [client] calls) is taken as a parameter. *)

From Stdlib Require Import String Ascii List ZArith Bool Lia DecimalString.
From stdpp Require Import gmap strings list fin_maps.

Set Warnings "-register-all".
Open Scope string_scope.

(** ** Python values, strings and exceptions *)

Module Py.

(** The values that cross the boundary as JSON or as a schema.  A [str]
    is a [string]; the operations below act on its characters. *)
Inductive pyval :=
| PyNone
| PyBool (b : bool)
| PyInt (z : Z)
| PyStr (s : string)
| PyList (l : list pyval)
| PyDict (d : gmap string pyval).

(** [Optional[str]] as a value. *)
Definition of_optional_str (o : option string) : pyval :=
  match o with
  | Some s => PyStr s
  | None => PyNone
  end.

(** The line feed, written [\n] in the source. *)
Definition nl : string := String "010"%char EmptyString.

(** [sep.join(parts)]. *)
Definition join (sep : string) (parts : list string) : string :=
  String.concat sep parts.

(** [str(n)] for a non-negative [int]. *)
Definition str_of_nat (n : nat) : string :=
  NilZero.string_of_uint (Nat.to_uint n).

(** [s.startswith(p)]. *)
Definition startswith (p s : string) : bool := String.prefix p s.

(** [sub in s] on strings. *)
Fixpoint contains (sub s : string) : bool :=
  startswith sub s ||
  match s with
  | EmptyString => false
  | String _ s' => contains sub s'
  end.

(** The scan of [str.replace] for a non-empty [old]: [skip] counts the
    characters of a match that are still to be dropped. *)
Fixpoint replace_scan (skip : nat) (old new s : string) : string :=
  match s with
  | EmptyString => EmptyString
  | String c s' =>
      match skip with
      | S k => replace_scan k old new s'
      | O =>
          if startswith old s
          then new ++ replace_scan (String.length old - 1) old new s'
          else String c (replace_scan 0 old new s')
      end
  end.

(** With an empty [old], [str.replace] puts [new] before every character
    and at the end. *)
Fixpoint intersperse_all (new s : string) : string :=
  match s with
  | EmptyString => new
  | String c s' => new ++ String c (intersperse_all new s')
  end.

(** [s.replace(old, new)]: every occurrence, leftmost first, without
    overlap. *)
Definition replace (s old new : string) : string :=
  match old with
  | EmptyString => intersperse_all new s
  | _ => replace_scan 0 old new s
  end.

(** [s.split("/")[-1]]. *)
Fixpoint last_segment (acc s : string) : string :=
  match s with
  | EmptyString => acc
  | String c s' =>
      if Ascii.eqb c "/"%char then last_segment EmptyString s'
      else last_segment (acc ++ String c EmptyString) s'
  end.

Definition basename (s : string) : string := last_segment EmptyString s.

(** [str(l)] for a list: the [repr] of the items between brackets. *)
Definition str_of_list {A : Type} (repr : A -> string) (l : list A) : string :=
  "[" ++ join ", " (map repr l) ++ "]".

(** The exception classes the code raises or meets.  The last four do not
    derive from [Exception]. *)
Inductive exn_class :=
| InvalidParametersException
| MissingParametersException
| UnexpectedParametersException
| RuntimeError
| TypeError
| AttributeError
| IndexError
| JSONDecodeError
| ValidationError
| OtherException (cls : string)
| SystemExit
| KeyboardInterrupt
| GeneratorExit
| OtherBaseException (cls : string).

(** A raised exception: its class and what [str(e)] gives. *)
Record exn := mk_exn { exn_cls : exn_class; exn_str : string }.

(** [isinstance(e, Exception)]. *)
Definition is_Exception (e : exn) : bool :=
  match exn_cls e with
  | SystemExit | KeyboardInterrupt | GeneratorExit | OtherBaseException _ => false
  | _ => true
  end.

(** A computation returns a value or raises. *)
Inductive outcome (A : Type) :=
| Return (a : A)
| Raise (e : exn).
Arguments Return {A} a.
Arguments Raise {A} e.

#[global] Instance outcome_ret : MRet outcome := fun A a => Return a.

#[global] Instance outcome_bind : MBind outcome := fun A B k m =>
  match m with
  | Return a => k a
  | Raise e => Raise e
  end.

#[global] Instance outcome_fmap : FMap outcome := fun A B g m =>
  match m with
  | Return a => Return (g a)
  | Raise e => Raise e
  end.

End Py.

Import Py.

(** ** openai_function_helper.py *)

(** [class Property(BaseModel)]. *)
Module Property.
Record t := mk {
  name : string;
  type : string;
  required : bool;
  description : option string
}.
End Property.

(** [class FunctionCall(BaseModel)]; [arguments: Optional[Dict]]. *)
Module FunctionCall.
Record t := mk {
  call_id : string;
  name : string;
  arguments : option (gmap string pyval)
}.
End FunctionCall.

(** [class Function(BaseModel, ABC)].  The abstract method [func] is a
    field: called with the keyword arguments, it returns or raises. *)
Module Function.

Record t := mk {
  name : string;
  description : option string;
  parameters : option (list Property.t);
  func : gmap string pyval -> outcome pyval
}.

(** The value of one key of the [properties] comprehension. *)
Definition property_entry (p : Property.t) : pyval :=
  PyDict (<["type" := PyStr (Property.type p)]>
          (<["description" := of_optional_str (Property.description p)]> ∅)).

(** [{p.name: {...} for p in self.parameters}]: the keys are set in
    declaration order, a later one overwriting an equal earlier one. *)
Definition properties_of (ps : list Property.t) : gmap string pyval :=
  foldl (fun d p => <[Property.name p := property_entry p]> d) ∅ ps.

(** [[p.name for p in self.parameters if p.required]]. *)
Definition required_of (ps : list Property.t) : list string :=
  map Property.name (filter (fun p => Property.required p = true) ps).

Definition parameters_block (props : gmap string pyval) (req : list string)
  : pyval :=
  PyDict (<["type" := PyStr "object"]>
          (<["properties" := PyDict props]>
           (<["required" := PyList (map PyStr req)]> ∅))).

Definition to_dict (self : t) : gmap string pyval :=
  match parameters self with
  | None =>
      <["name" := PyStr (name self)]>
      (<["description" := of_optional_str (description self)]>
       (<["parameters" := parameters_block ∅ []]> ∅))
  | Some ps =>
      <["name" := PyStr (name self)]>
      (<["description" := of_optional_str (description self)]>
       (<["parameters" := parameters_block (properties_of ps) (required_of ps)]> ∅))
  end.

(** Truth value of [function_call.arguments] and of [self.parameters]:
    [None] and the empty container are false. *)
Definition arguments_truthy (a : option (gmap string pyval)) : bool :=
  match a with
  | None => false
  | Some d => negb (bool_decide (d = ∅))
  end.

Definition parameters_truthy (ps : option (list Property.t)) : bool :=
  match ps with
  | None | Some [] => false
  | Some (_ :: _) => true
  end.

(** [[p.name for p in self.parameters
      if p.required and p.name not in function_call.arguments]]. *)
Definition missing_parameters (ps : list Property.t) (d : gmap string pyval)
  : list string :=
  map Property.name
    (filter (fun p => Property.required p = true /\ d !! Property.name p = None) ps).

(** The call of [self.func] with the arguments unpacked as keywords. *)
Definition call_func (self : t) (a : option (gmap string pyval)) : outcome pyval :=
  match a with
  | Some d => func self d
  | None =>
      Raise (mk_exn TypeError "argument after ** must be a mapping, not NoneType")
  end.

(** The third check of [run].  It is reached with [None] for the arguments
    only when the parameters are empty, where it does nothing. *)
Definition check_required (self : t) (a : option (gmap string pyval))
  : outcome unit :=
  match parameters self with
  | Some (p :: ps) =>
      match a with
      | Some d =>
          match missing_parameters (p :: ps) d with
          | [] => Return tt
          | missing =>
              Raise (mk_exn MissingParametersException
                       ("Missing parameter(s): " ++ join ", " missing))
          end
      | None =>
          if existsb Property.required (p :: ps)
          then Raise (mk_exn TypeError "argument of type 'NoneType' is not iterable")
          else Return tt
      end
  | _ => Return tt
  end.

Definition run (self : t) (function_call : option FunctionCall.t)
  : outcome pyval :=
  match function_call with
  | None =>
      Raise (mk_exn AttributeError "'NoneType' object has no attribute 'arguments'")
  | Some fc =>
      let a := FunctionCall.arguments fc in
      if negb (arguments_truthy a) && parameters_truthy (parameters self)
      then Raise (mk_exn MissingParametersException "Missing parameters")
      else if arguments_truthy a && negb (parameters_truthy (parameters self))
      then Raise (mk_exn UnexpectedParametersException "Unexpected parameters")
      else check_required self a ;; call_func self a
  end.

Section Catch.

(** [traceback.format_exc()] inside the handler of [e]. *)
Variable format_exc : exn -> string.

(** [f'{e}\n{traceback.format_exc()}']. *)
Definition render_exception (e : exn) : string :=
  exn_str e ++ nl ++ format_exc e.

Definition run_catch_exceptions (self : t) (function_call : option FunctionCall.t)
  : outcome pyval :=
  match run self function_call with
  | Return v => Return v
  | Raise e =>
      if is_Exception e then Return (PyStr (render_exception e))
      else Raise e
  end.

End Catch.

End Function.

(** ** openai_assistant_helper.py *)

(** The objects of the remote service that the code reads, with the fields
    it reads. *)

(** [tool.function]: the requested name and the arguments as JSON text. *)
Module ToolFunction.
Record t := mk { name : string; arguments : string }.
End ToolFunction.

Module ToolCall.
Record t := mk { id : string; function : ToolFunction.t }.
End ToolCall.

Module LastError.
Record t := mk { code : string; message : string }.
End LastError.

(** [required_action] holds [run.required_action.submit_tool_outputs.tool_calls],
    [None] when the run has no required action. *)
Module Run.
Record t := mk {
  id : string;
  status : string;
  required_action : option (list ToolCall.t);
  last_error : option LastError.t
}.
End Run.

Module FileCitation.
Record t := mk { file_id : string; quote : string }.
End FileCitation.

Module FilePath.
Record t := mk { file_id : string }.
End FilePath.

(** An annotation; [file_citation] and [file_path] are read with
    [getattr(annotation, _, None)]. *)
Module Annotation.
Record t := mk {
  text : string;
  file_citation : option FileCitation.t;
  file_path : option FilePath.t
}.
End Annotation.

Module Text.
Record t := mk { value : string; annotations : list Annotation.t }.
End Text.

Inductive MessageContent :=
| MessageContentText (text : Text.t)
| MessageContentImageFile (file_id : string).

Module ThreadMessage.
Record t := mk {
  role : string;
  run_id : option string;
  file_ids : list string;
  content : list MessageContent
}.
End ThreadMessage.

Module FileObject.
Record t := mk { id : string; filename : string }.
End FileObject.

(** One element of the list given to [submit_tool_outputs]. *)
Module ToolOutput.
Record t := mk { tool_call_id : string; output : pyval }.
End ToolOutput.

(** A file written by [create_file]: its path and its content. *)
Module FileWrite.
Record t := mk { path : string; data : string }.
End FileWrite.

Module AIAssistant.

(** The fields of the assistant that the modelled methods read.
    [functions] is the list given to the constructor: with its default
    [None] the assistant declares no function tool, and that case is left
    out.  The diagnostics printed when [verbose] is set are not modelled. *)
Record t := mk {
  assistant_id : string;
  functions : list Function.t;
  verbose : bool
}.

Section ToolOutputs.

Variable format_exc : exn -> string.

(** [json.loads]: the decoded value, or the exception it raises. *)
Variable json_loads : string -> outcome pyval.

(** The validation of [arguments: Optional[Dict]] when the [FunctionCall]
    is built: a mapping or [None] is kept, another value is refused. *)
Definition validate_arguments (v : pyval) : outcome (option (gmap string pyval)) :=
  match v with
  | PyDict d => Return (Some d)
  | PyNone => Return None
  | _ => Raise (mk_exn ValidationError "value is not a valid dict")
  end.

(** Lines 190-198: the [FunctionCall] built from a tool call. *)
Definition function_call_of (tool : ToolCall.t) : outcome FunctionCall.t :=
  let function_name := ToolFunction.name (ToolCall.function tool) in
  function_arguments ←
    (match ToolFunction.arguments (ToolCall.function tool) with
     | EmptyString => Return (PyDict ∅)
     | text => json_loads text
     end);
  arguments ← validate_arguments function_arguments;
  Return (FunctionCall.mk (ToolCall.id tool) function_name arguments).

(** The loop over [self.functions], on the pair of [tool_found] and
    [tool_outputs]: every function of that name runs and appends its
    output. *)
Fixpoint for_functions (fs : list Function.t) (function_call : FunctionCall.t)
    (st : bool * list ToolOutput.t) : outcome (bool * list ToolOutput.t) :=
  match fs with
  | [] => Return st
  | f :: fs' =>
      if String.eqb (Function.name f) (FunctionCall.name function_call)
      then
        response ← Function.run_catch_exceptions format_exc f (Some function_call);
        for_functions fs' function_call
          (true, (st.2 ++ [ToolOutput.mk (FunctionCall.call_id function_call) response])%list)
      else for_functions fs' function_call st
  end.

Definition not_found (function_call : FunctionCall.t) : ToolOutput.t :=
  ToolOutput.mk (FunctionCall.call_id function_call)
    (PyStr ("Function " ++ FunctionCall.name function_call ++ " not found")).

(** Lines 199-226: the outputs appended for one [FunctionCall], by the
    functions of its name or by the branch taken when there is none. *)
Definition dispatch (self : t) (function_call : FunctionCall.t)
    (tool_outputs : list ToolOutput.t) : outcome (list ToolOutput.t) :=
  '(tool_found, tool_outputs') ←
    for_functions (functions self) function_call (false, tool_outputs);
  if tool_found : bool then Return tool_outputs'
  else Return (tool_outputs' ++ [not_found function_call])%list.

(** The body of the loop over the tool calls. *)
Definition for_tool (self : t) (tool : ToolCall.t) (tool_outputs : list ToolOutput.t)
  : outcome (list ToolOutput.t) :=
  function_call ← function_call_of tool;
  dispatch self function_call tool_outputs.

Fixpoint for_tools (self : t) (tools : list ToolCall.t) (tool_outputs : list ToolOutput.t)
  : outcome (list ToolOutput.t) :=
  match tools with
  | [] => Return tool_outputs
  | tool :: tools' =>
      tool_outputs' ← for_tool self tool tool_outputs;
      for_tools self tools' tool_outputs'
  end.

Definition no_required_action : exn :=
  mk_exn AttributeError "'NoneType' object has no attribute 'submit_tool_outputs'".

Definition create_tool_outputs (self : t) (run : Run.t) : outcome (list ToolOutput.t) :=
  match Run.required_action run with
  | None => Raise no_required_action
  | Some tools => for_tools self tools []
  end.

End ToolOutputs.

(** The registered functions that bear a name, and the number of outputs
    that one tool call adds to the batch. *)
Definition named (n : string) (fs : list Function.t) : list Function.t :=
  filter (fun f => Function.name f = n) fs.

Definition copies (self : t) (tool : ToolCall.t) : nat :=
  Nat.max 1 (length (named (ToolFunction.name (ToolCall.function tool)) (functions self))).

(** It appends [tool.function], the function object, not its name. *)
Definition get_required_functions_names (self : t) (run : Run.t)
  : outcome (list ToolFunction.t) :=
  match Run.required_action run with
  | None => Raise no_required_action
  | Some tools => Return (map ToolCall.function tools)
  end.

Section Messages.

(** [self.client.files.retrieve] and [self.client.files.content]; the
    service is taken to answer every request, the content to be text and
    the local file system to accept every write. *)
Variable files_retrieve : string -> FileObject.t.
Variable files_content : string -> string.

Definition create_file (self : t) (filename file_id : string) : FileWrite.t :=
  let content := files_content file_id in
  FileWrite.mk (basename filename) content.

(** What the loop of [format_message] updates: [message_content.value],
    [citations] and the files written so far. *)
Record format_state := mk_format_state {
  value : string;
  citations : list string;
  written : list FileWrite.t
}.

Definition index_mark (index : nat) : string :=
  " [" ++ str_of_nat index ++ "]".

(** The two f-strings appended to [citations]. *)
Definition citation_line (index : nat) (quote filename : string) : string :=
  "[" ++ str_of_nat index ++ "] " ++ quote ++ " from " ++ filename.

Definition download_line (index : nat) (filename : string) : string :=
  "[" ++ str_of_nat index ++ "] file: " ++ filename ++ " is downloaded".

Definition for_annotation (self : t) (index : nat) (annotation : Annotation.t)
    (st : format_state) : format_state :=
  let value' := replace (value st) (Annotation.text annotation) (index_mark index) in
  match Annotation.file_citation annotation with
  | Some file_citation =>
      let cited_file := files_retrieve (FileCitation.file_id file_citation) in
      mk_format_state value'
        (citations st ++
           [citation_line index (FileCitation.quote file_citation)
              (FileObject.filename cited_file)])%list
        (written st)
  | None =>
      match Annotation.file_path annotation with
      | Some file_path =>
          let cited_file := files_retrieve (FilePath.file_id file_path) in
          mk_format_state value'
            (citations st ++
               [download_line index (FileObject.filename cited_file)])%list
            (written st ++
               [create_file self (FileObject.filename cited_file) (FileObject.id cited_file)])%list
      | None => mk_format_state value' (citations st) (written st)
      end
  end.

(** [for index, annotation in enumerate(annotations)], from [index] on. *)
Fixpoint for_annotations (self : t) (index : nat) (annotations : list Annotation.t)
    (st : format_state) : format_state :=
  match annotations with
  | [] => st
  | annotation :: rest =>
      for_annotations self (S index) rest (for_annotation self index annotation st)
  end.




(** Lines 334-337: the text object of the first content block. *)
Definition message_content_of (message : ThreadMessage.t) : outcome Text.t :=
  match ThreadMessage.content message with
  | [] => Raise (mk_exn IndexError "list index out of range")
  | MessageContentText text :: _ => Return text
  | MessageContentImageFile _ :: _ =>
      Raise (mk_exn AttributeError
               "'MessageContentImageFile' object has no attribute 'annotations'")
  end.

(** The returned string, which is also the final [message_content.value]
    of the message, with the files written on the way. *)
Definition format_message (self : t) (message : ThreadMessage.t)
  : outcome (string * list FileWrite.t) :=
  message_content ← message_content_of message;
  let st := for_annotations self 0 (Text.annotations message_content)
              (mk_format_state (Text.value message_content) [] []) in
  Return (value st ++ nl ++ join nl (citations st), written st).

Fixpoint first_of_run (self : t) (run_id : string) (messages : list ThreadMessage.t)
  : outcome (string * list FileWrite.t) :=
  match messages with
  | [] => Return ("Assistant: No message found", [])
  | message :: rest =>
      if bool_decide (ThreadMessage.run_id message = Some run_id)
      then
        '(text, files) ← format_message self message;
        Return (ThreadMessage.role message ++ ": " ++ text, files)
      else first_of_run self run_id rest
  end.

End Messages.

Section Polling.

Variable format_exc : exn -> string.
Variable json_loads : string -> outcome pyval.
Variable files_retrieve : string -> FileObject.t.
Variable files_content : string -> string.

(** The text an f-string gives for [run.last_error] and for a function
    object in a list. *)
Variable str_last_error : option LastError.t -> string.
Variable repr_function : ToolFunction.t -> string.

(** The remote service: its state and the calls of [self.client] on
    threads, messages and runs. *)
Variable remote : Type.
Variable messages_create :
  remote -> string -> string -> string -> list string -> remote.
Variable messages_list : remote -> string -> list ThreadMessage.t.
Variable runs_create : remote -> string -> string -> option string -> Run.t * remote.
Variable runs_retrieve : remote -> string -> string -> Run.t * remote.
Variable runs_submit_tool_outputs :
  remote -> string -> string -> list ToolOutput.t -> Run.t * remote.

Definition extract_run_message (self : t) (r : remote) (run : Run.t) (thread_id : string)
  : outcome (string * list FileWrite.t) :=
  first_of_run files_retrieve files_content self (Run.id run) (messages_list r thread_id).

Definition run_failed (run : Run.t) : exn :=
  mk_exn RuntimeError
    ("Run failed with the following error " ++ str_last_error (Run.last_error run)).

Definition run_expired (function_names : list ToolFunction.t) : exn :=
  mk_exn RuntimeError
    ("Run expired when calling " ++ str_of_list repr_function function_names).

(** The [while run.status != "completed"] loop; [fuel] bounds the number
    of iterations, [None] is a loop still running when it is used up.
    The pause between two iterations is not modelled. *)
Fixpoint poll (fuel : nat) (self : t) (thread_id : string) (r : remote) (run : Run.t)
  : option (outcome (Run.t * remote)) :=
  if String.eqb (Run.status run) "completed" then Some (Return (run, r))
  else
    match fuel with
    | O => None
    | S fuel' =>
        let (run1, r1) := runs_retrieve r thread_id (Run.id run) in
        if String.eqb (Run.status run1) "failed"
        then Some (Raise (run_failed run1))
        else if String.eqb (Run.status run1) "expired"
        then Some (function_names ← get_required_functions_names self run1;
                   Raise (run_expired function_names))
        else if String.eqb (Run.status run1) "requires_action"
        then
          match create_tool_outputs format_exc json_loads self run1 with
          | Raise e => Some (Raise e)
          | Return tool_outputs =>
              let (run2, r2) :=
                runs_submit_tool_outputs r1 thread_id (Run.id run1) tool_outputs in
              poll fuel' self thread_id r2 run2
          end
        else poll fuel' self thread_id r1 run1
    end.

Definition create_response (fuel : nat) (self : t) (r : remote)
    (thread_id content : string) (message_files : option (list string))
    (run_instructions : option string)
  : option (outcome (string * list FileWrite.t)) :=
  let r0 := messages_create r thread_id "user" content
              (match message_files with
               | Some (f :: fs) => f :: fs
               | _ => []
               end) in
  let (run, r1) := runs_create r0 thread_id (assistant_id self) run_instructions in
  match poll fuel self thread_id r1 run with
  | None => None
  | Some (Raise e) => Some (Raise e)
  | Some (Return (run', r2)) =>
      Some ('(text, files) ← extract_run_message self r2 run' thread_id;
            Return (nl ++ text, files))
  end.

End Polling.

End AIAssistant.

(** ** The rest of openai_assistant_helper.py *)

(** [class Message]: a message of the conversation kept by the assistant. *)
Module Message.
Record t := mk {
  thread_id : string;
  role : string;
  content : string;
  file_ids : list string
}.
End Message.

Module Session.

(** [Conversation.print_conversation]: the lines it prints, with its two
    loops over the messages. *)
Definition conversation_line (message : Message.t) : string :=
  Message.role message ++ ": " ++ Message.content message.

Definition print_conversation (messages : list Message.t) : list string :=
  (map conversation_line messages ++ map conversation_line messages)%list.

(** Lines 129-135 of [__init__]: the tools declared to the service, from
    the constructor's [functions] (with its default [None]) and its two
    flags. *)
Definition function_tool (f : Function.t) : pyval :=
  PyDict (<["type" := PyStr "function"]>
          (<["function" := PyDict (Function.to_dict f)]> ∅)).

Definition builtin_tool (kind : string) : pyval :=
  PyDict (<["type" := PyStr kind]> ∅).

Definition init_tools (functions : option (list Function.t))
    (use_retrieval use_code_interpreter : bool) : list pyval :=
  let tools :=
    match functions with
    | Some (f :: fs) => map function_tool (f :: fs)
    | _ => []
    end in
  let tools := if use_retrieval then (tools ++ [builtin_tool "retrieval"])%list else tools in
  if use_code_interpreter then (tools ++ [builtin_tool "code_interpreter"])%list else tools.

(** What the service reads in a declared tool: its type and, for a
    function tool, the name in its schema. *)
Definition tool_type (tool : pyval) : option string :=
  match tool with
  | PyDict d => match d !! "type" with Some (PyStr s) => Some s | _ => None end
  | _ => None
  end.

Definition tool_function_name (tool : pyval) : option string :=
  match tool with
  | PyDict d =>
      match d !! "function" with
      | Some (PyDict schema) =>
          match schema !! "name" with Some (PyStr n) => Some n | _ => None end
      | _ => None
      end
  | _ => None
  end.

(** The [Message] that [create_conversation] makes of a listed message
    and of its rendering. *)
Definition message_of (thread_id : string) (message : ThreadMessage.t) (content : string)
  : Message.t :=
  Message.mk thread_id (ThreadMessage.role message) content
    (ThreadMessage.file_ids message).

Section Conversation.

Variable files_retrieve : string -> FileObject.t.
Variable files_content : string -> string.
Variable remote : Type.
Variable messages_list : remote -> string -> list ThreadMessage.t.


(** The loop of [create_conversation] on [self.conversation.messages] and
    the files written: it stops at the first message that
    [format_message] refuses, with what was appended before it. *)
Fixpoint append_formatted (self : AIAssistant.t) (thread_id : string)
    (messages : list ThreadMessage.t) (conversation : list Message.t)
    (files : list FileWrite.t) : option exn * list Message.t * list FileWrite.t :=
  match messages with
  | [] => (None, conversation, files)
  | message :: rest =>
      match AIAssistant.format_message files_retrieve files_content self message with
      | Raise e => (Some e, conversation, files)
      | Return (content, written) =>
          append_formatted self thread_id rest
            (conversation ++ [message_of thread_id message content])%list
            (files ++ written)%list
      end
  end.

(** [create_conversation]: the lines printed or the exception, the
    conversation afterwards and the files written. *)
Definition create_conversation (self : AIAssistant.t) (r : remote) (thread_id : string)
    (conversation : list Message.t)
  : outcome (list string) * list Message.t * list FileWrite.t :=
  match append_formatted self thread_id (messages_list r thread_id) conversation [] with
  | (Some e, conversation', files) => (Raise e, conversation', files)
  | (None, conversation', files) =>
      (Return (print_conversation conversation'), conversation', files)
  end.

End Conversation.

Section Chat.

Variable format_exc : exn -> string.
Variable json_loads : string -> outcome pyval.
Variable files_retrieve : string -> FileObject.t.
Variable files_content : string -> string.
Variable str_last_error : option LastError.t -> string.
Variable repr_function : ToolFunction.t -> string.
Variable remote : Type.
Variable messages_create :
  remote -> string -> string -> string -> list string -> remote.
Variable messages_list : remote -> string -> list ThreadMessage.t.
Variable runs_create : remote -> string -> string -> option string -> Run.t * remote.
Variable runs_retrieve : remote -> string -> string -> Run.t * remote.
Variable runs_submit_tool_outputs :
  remote -> string -> string -> list ToolOutput.t -> Run.t * remote.

(** [self.client.beta.threads.create], giving the id of the new thread,
    and the three deletions of the clean-up. *)
Variable threads_create : remote -> string * remote.
Variable assistants_files_delete : remote -> string -> string -> remote.
Variable threads_delete : remote -> string -> remote.
Variable assistants_delete : remote -> string -> remote.

(** [create_response] once more, keeping the state in which it leaves the
    service. *)
Definition create_response_in (fuel : nat) (self : AIAssistant.t) (r : remote)
    (thread_id content : string) (message_files : option (list string))
    (run_instructions : option string)
  : option (outcome (string * list FileWrite.t * remote)) :=
  let r0 := messages_create r thread_id "user" content
              (match message_files with
               | Some (f :: fs) => f :: fs
               | _ => []
               end) in
  let (run, r1) := runs_create r0 thread_id (AIAssistant.assistant_id self) run_instructions in
  match AIAssistant.poll format_exc json_loads str_last_error repr_function remote
          runs_retrieve runs_submit_tool_outputs fuel self thread_id r1 run with
  | None => None
  | Some (Raise e) => Some (Raise e)
  | Some (Return (run', r2)) =>
      Some ('(text, files) ←
              AIAssistant.extract_run_message files_retrieve files_content remote
                messages_list self r2 run' thread_id;
            Return (nl ++ text, files, r2))
  end.

(** The two words that end [chat]. *)
Definition is_farewell (user_input : string) : bool :=
  String.eqb user_input "bye" || String.eqb user_input "exit".

(** The prompt of [input] and the colour put before a reply. *)
Definition prompt : string := String "027"%char "[32mYou (type bye to quit): ".
Definition reply_line (message : string) : string := String "027"%char "[33m" ++ message.

(** What [chat] leaves behind when its loop ends: the service, the text
    written to the terminal, the files written and the lines not read. *)
Record chat_end := mk_chat_end {
  service : remote;
  printed : list string;
  files : list FileWrite.t;
  unread : list string
}.

(** The [while] loop of [chat] over the lines typed: each pass reads one
    line, answers it and then tests it.  [input] at the end of the input
    raises [EOFError]; [fuel] bounds each [create_response]. *)
Fixpoint chat_loop (fuel : nat) (self : AIAssistant.t) (thread_id : string)
    (file_ids : option (list string)) (inputs : list string) (st : chat_end)
  : option (outcome chat_end) :=
  match inputs with
  | [] => Some (Raise (mk_exn (OtherException "EOFError") "EOF when reading a line"))
  | user_input :: rest =>
      match create_response_in fuel self (service st) thread_id user_input file_ids None with
      | None => None
      | Some (Raise e) => Some (Raise e)
      | Some (Return (message, written, r)) =>
          let st' :=
            mk_chat_end r (printed st ++ [prompt; reply_line message])%list
              (files st ++ written)%list rest in
          if is_farewell user_input then Some (Return st')
          else chat_loop fuel self thread_id file_ids rest st'
      end
  end.

(** The end of [chat], under [self.auto_delete]. *)
Definition clean_up (self : AIAssistant.t) (auto_delete : bool)
    (file_ids : option (list string)) (thread_id : string) (r : remote) : remote :=
  if auto_delete then
    let r1 :=
      match file_ids with
      | Some (f :: fs) =>
          foldl (fun r file => assistants_files_delete r (AIAssistant.assistant_id self) file)
            r (f :: fs)
      | _ => r
      end in
    assistants_delete (threads_delete r1 thread_id) (AIAssistant.assistant_id self)
  else r.

Definition chat (fuel : nat) (self : AIAssistant.t) (auto_delete : bool) (r : remote)
    (file_ids : option (list string)) (inputs : list string)
  : option (outcome chat_end) :=
  let (thread_id, r0) := threads_create r in
  match chat_loop fuel self thread_id file_ids inputs (mk_chat_end r0 [] [] inputs) with
  | None => None
  | Some (Raise e) => Some (Raise e)
  | Some (Return st) =>
      Some (Return (mk_chat_end (clean_up self auto_delete file_ids thread_id (service st))
                      (printed st) (files st) (unread st)))
  end.

(** The replies to a list of lines, one [create_response] after the
    other on the same thread. *)
Fixpoint answers (fuel : nat) (self : AIAssistant.t) (thread_id : string)
    (file_ids : option (list string)) (contents : list string) (r : remote)
  : option (outcome (list string * list FileWrite.t * remote)) :=
  match contents with
  | [] => Some (Return ([], [], r))
  | content :: rest =>
      match create_response_in fuel self r thread_id content file_ids None with
      | None => None
      | Some (Raise e) => Some (Raise e)
      | Some (Return (message, written, r1)) =>
          match answers fuel self thread_id file_ids rest r1 with
          | None => None
          | Some (Raise e) => Some (Raise e)
          | Some (Return (messages, written', r2)) =>
              Some (Return (message :: messages, (written ++ written')%list, r2))
          end
      end
  end.

End Chat.

End Session.

(** ** run_query.py *)

Module RunQuery.

Section Sqlite.

(** The text of the [TypeError] that a call raises when the keywords do
    not fit the parameters. *)
Variable keyword_error : list string -> gmap string pyval -> string.

(** The text of the [TypeError] of [str.join] on items that are not all
    strings. *)
Variable join_error : list pyval -> string.

(** The database: for a path, the [sql] column of the rows of
    [sqlite_master] that are tables; for a database and a query, the
    [str] of every row fetched.  Both raise what [sqlite3] raises. *)
Variable table_statements : pyval -> outcome (list pyval).
Variable query_rows : pyval -> pyval -> outcome (list string).

(** The binding of keyword arguments to the parameters of a method
    declared [def func(self, n1, ..., nk)]: every keyword must be a
    parameter and every parameter must be given. *)
Definition bind_keywords (names : list string) (d : gmap string pyval)
  : outcome (list pyval) :=
  if bool_decide (dom d ⊆ list_to_set names) then
    match mapM (fun n => d !! n) names with
    | Some values => Return values
    | None => Raise (mk_exn TypeError (keyword_error names d))
    end
  else Raise (mk_exn TypeError (keyword_error names d)).

(** [sep.join(items)] on values: every item must be a [str]. *)
Definition join_values (sep : string) (items : list pyval) : outcome string :=
  match mapM (fun v => match v with PyStr s => Some s | _ => None end) items with
  | Some parts => Return (join sep parts)
  | None => Raise (mk_exn TypeError (join_error items))
  end.

Definition get_db_schema_func (d : gmap string pyval) : outcome pyval :=
  values ← bind_keywords ["sql_path"] d;
  match values with
  | [sql_path] =>
      create_statements ← table_statements sql_path;
      text ← join_values (nl ++ nl) create_statements;
      Return (PyStr text)
  | _ => Raise (mk_exn TypeError (keyword_error ["sql_path"] d))
  end.

(** [GetDBSchema()]. *)
Definition GetDBSchema : Function.t :=
  Function.mk "get_db_schema" (Some "Get the schema of the database")
    (Some [Property.mk "sql_path" "string" true (Some "The path to the SQLite database")])
    get_db_schema_func.

Definition run_sql_query_func (d : gmap string pyval) : outcome pyval :=
  values ← bind_keywords ["query"; "database"] d;
  match values with
  | [query; database] =>
      results ← query_rows database query;
      Return (PyStr (join nl results))
  | _ => Raise (mk_exn TypeError (keyword_error ["query"; "database"] d))
  end.

(** [RunSQLQuery()]. *)
Definition RunSQLQuery : Function.t :=
  Function.mk "run_sql_query" (Some "Run a SQL query on the database")
    (Some [Property.mk "query" "string" true (Some "The SQL query to run");
           Property.mk "database" "string" true (Some "The database to run the query on")])
    run_sql_query_func.

(** The functions and the tools of the module's [assistant]. *)
Definition assistant_functions : list Function.t := [GetDBSchema; RunSQLQuery].

Definition assistant_tools : list pyval :=
  Session.init_tools (Some assistant_functions) false true.

End Sqlite.

End RunQuery.

(** ** Sample inputs *)

Module Samples.

(** A stand-in for the traceback text. *)
Definition format_exc (e : exn) : string :=
  "Traceback (most recent call last):" ++ nl ++ exn_str e ++ nl.

(** A decoder that knows the empty object only. *)
Definition json_loads (text : string) : outcome pyval :=
  if String.eqb text "{}" then Return (PyDict ∅)
  else Raise (mk_exn JSONDecodeError "Expecting value").

Definition ok (_ : gmap string pyval) : outcome pyval := Return (PyStr "ok").

Definition interrupted (_ : gmap string pyval) : outcome pyval :=
  Raise (mk_exn KeyboardInterrupt "").

(** A function requiring the parameter [x]. *)
Definition f_x : Function.t :=
  Function.mk "f" None (Some [Property.mk "x" "string" true None]) ok.

(** Functions declaring no parameter, with [None] and with the empty list. *)
Definition f_plain : Function.t := Function.mk "g" (Some "no parameter") None ok.
Definition f_empty : Function.t := Function.mk "g" None (Some []) ok.

(** Two parameters of the same name. *)
Definition same_name : list Property.t :=
  [Property.mk "x" "string" true None; Property.mk "x" "integer" false (Some "again")].
Definition f_same_name : Function.t := Function.mk "f" None (Some same_name) ok.

(** A function whose callable is interrupted. *)
Definition f_interrupted : Function.t := Function.mk "h" None None interrupted.

Definition call_empty : FunctionCall.t := FunctionCall.mk "call_1" "f" (Some ∅).
Definition call_y : FunctionCall.t :=
  FunctionCall.mk "call_1" "f" (Some (<["y" := PyInt 1]> ∅)).
Definition call_a : FunctionCall.t :=
  FunctionCall.mk "call_2" "g" (Some (<["a" := PyInt 1]> ∅)).
Definition call_h : FunctionCall.t := FunctionCall.mk "call_3" "h" (Some ∅).

(** An assistant with two functions of the same name, and one with a single
    function. *)
Definition twice : AIAssistant.t :=
  AIAssistant.mk "asst_1" [f_plain; f_empty] false.
Definition single : AIAssistant.t := AIAssistant.mk "asst_2" [f_x] false.

Definition tool_g : ToolCall.t := ToolCall.mk "call_1" (ToolFunction.mk "g" "").
Definition tool_f : ToolCall.t := ToolCall.mk "call_2" (ToolFunction.mk "f" "").
Definition tool_unknown : ToolCall.t :=
  ToolCall.mk "call_9" (ToolFunction.mk "nope" "{}").

Definition run_with (status : string) (tools : list ToolCall.t) : Run.t :=
  Run.mk "run_1" status (Some tools) None.

(** The file service: every id names [doc.txt]. *)
Definition files_retrieve (file_id : string) : FileObject.t :=
  FileObject.mk file_id "doc.txt".
Definition files_content (_ : string) : string := "".


(** A message without annotations. *)
Definition plain_message : ThreadMessage.t :=
  ThreadMessage.mk "assistant" (Some "run_1") []
    [MessageContentText (Text.mk "Done." [])].

(** The rendering of a function object and of the last error, for texts
    without quotes. *)
Definition repr_function (f : ToolFunction.t) : string :=
  "Function(arguments='" ++ ToolFunction.arguments f ++ "', name='"
    ++ ToolFunction.name f ++ "')".

Definition str_last_error (o : option LastError.t) : string :=
  match o with
  | None => "None"
  | Some le =>
      "code='" ++ LastError.code le ++ "' message='" ++ LastError.message le ++ "'"
  end.

(** A remote service that plays a script: each call on a run gives the
    next run of the list, and a completed run once the list is used up. *)
Definition script : Type := list Run.t.

Definition next (r : script) : Run.t * script :=
  match r with
  | run :: r' => (run, r')
  | [] => (Run.mk "run_1" "completed" None None, [])
  end.

Definition messages_create (r : script) (_ _ _ : string) (_ : list string) : script := r.
Definition messages_list (_ : script) (_ : string) : list ThreadMessage.t :=
  [plain_message].
Definition runs_create (r : script) (_ _ : string) (_ : option string) := next r.
Definition runs_retrieve (r : script) (_ _ : string) := next r.
Definition runs_submit_tool_outputs (r : script) (_ _ : string) (_ : list ToolOutput.t) :=
  next r.

Definition queued : Run.t := Run.mk "run_1" "queued" None None.
Definition failed : Run.t :=
  Run.mk "run_1" "failed" None (Some (LastError.mk "server_error" "boom")).


(** The polling loop and [create_response] against the scripted service. *)
Definition poll :=
  AIAssistant.poll format_exc json_loads str_last_error repr_function
    script runs_retrieve runs_submit_tool_outputs.

Definition create_response :=
  AIAssistant.create_response format_exc json_loads files_retrieve files_content
    str_last_error repr_function script messages_create messages_list runs_create
    runs_retrieve runs_submit_tool_outputs.

(** A call that gives [x] and an undeclared key. *)
Definition call_xz : FunctionCall.t :=
  FunctionCall.mk "call_5" "f" (Some (<["x" := PyStr "v"]> (<["z" := PyInt 0]> ∅))).

(** A tool call whose arguments are not JSON. *)
Definition tool_broken : ToolCall.t :=
  ToolCall.mk "call_7" (ToolFunction.mk "f" "{").


Definition completed : Run.t := Run.mk "run_1" "completed" None None.
Definition cancelled : Run.t := Run.mk "run_1" "cancelled" None None.

(** The polling loop against a service without state. *)
Definition poll_against (runs_retrieve : unit -> string -> string -> Run.t * unit) :=
  AIAssistant.poll format_exc json_loads str_last_error repr_function unit
    runs_retrieve (fun _ _ _ _ => (cancelled, tt)).

(** A message that begins with an image. *)
Definition image_message : ThreadMessage.t :=
  ThreadMessage.mk "assistant" (Some "run_1") [] [MessageContentImageFile "file_3"].

(** [chat] against the scripted service, which has one thread and forgets
    what is deleted. *)
Definition threads_create (r : script) : string * script := ("thread_1", r).
Definition forget (r : script) (_ : string) : script := r.
Definition forget_file (r : script) (_ _ : string) : script := r.

Definition chat :=
  Session.chat format_exc json_loads files_retrieve files_content str_last_error
    repr_function script messages_create messages_list runs_create runs_retrieve
    runs_submit_tool_outputs threads_create forget_file forget forget.

Definition answers :=
  Session.answers format_exc json_loads files_retrieve files_content str_last_error
    repr_function script messages_create messages_list runs_create runs_retrieve
    runs_submit_tool_outputs.

(** A database with no table and without rows, and texts for the two
    [TypeError] messages. *)
Definition no_table (_ : pyval) : outcome (list pyval) := Return [].
Definition no_row (_ _ : pyval) : outcome (list string) := Return [].
Definition keyword_error (_ : list string) (_ : gmap string pyval) : string :=
  "func() got an unexpected keyword argument".
Definition join_error (_ : list pyval) : string :=
  "sequence item 0: expected str instance".

End Samples.

(** * Theorems *)

(** ** The wire schema *)

Section Schema.

Implicit Types (f : Function.t) (p : Property.t) (P : list Property.t).

Lemma to_dict_parameters_block f :
  Function.to_dict f !! "parameters" =
    Some (match Function.parameters f with
          | None => Function.parameters_block ∅ []
          | Some P =>
              Function.parameters_block (Function.properties_of P) (Function.required_of P)
          end).
Proof.
  unfold Function.to_dict. destruct (Function.parameters f); reflexivity.
Qed.

(** The comprehension read key by key: the last parameter of a name gives
    the entry. *)
Lemma foldl_properties_lookup P (acc : gmap string pyval) (n : string) :
  foldl (fun d p => <[Property.name p := Function.property_entry p]> d) acc P !! n =
    match last (filter (fun p => Property.name p = n) P) with
    | Some p => Some (Function.property_entry p)
    | None => acc !! n
    end.
Proof.
  revert acc. induction P as [|p P IH]; intros acc; [reflexivity|].
  cbn [foldl]. rewrite IH, filter_cons.
  destruct (decide (Property.name p = n)) as [Heq|Hne].
  - rewrite last_cons. destruct (last _); [reflexivity|].
    rewrite Heq. apply lookup_insert_eq.
  - destruct (last _); [reflexivity|]. by apply lookup_insert_ne.
Qed.

Lemma foldl_properties_size P (acc : gmap string pyval) :
  NoDup (map Property.name P) ->
  (forall p, p ∈ P -> acc !! Property.name p = None) ->
  size (foldl (fun d p => <[Property.name p := Function.property_entry p]> d) acc P)
    = size acc + length P.
Proof.
  revert acc. induction P as [|p P IH]; intros acc Hnd Hfresh; cbn [foldl length].
  - lia.
  - cbn [map] in Hnd. apply NoDup_cons in Hnd as [Hp Hnd].
    rewrite IH; [| done |].
    + rewrite map_size_insert_None; [lia|]. apply Hfresh. left.
    + intros q Hq. rewrite lookup_insert_ne; [apply Hfresh; by right|].
      intros Heq. apply Hp. rewrite Heq. apply list_elem_of_fmap. eauto.
Qed.

Lemma properties_of_lookup P n :
  Function.properties_of P !! n =
    Function.property_entry <$> last (filter (fun p => Property.name p = n) P).
Proof.
  unfold Function.properties_of. rewrite foldl_properties_lookup.
  destruct (last _); [reflexivity | apply lookup_empty].
Qed.

Lemma last_filter_unique P p :
  NoDup (map Property.name P) -> p ∈ P ->
  last (filter (fun q => Property.name q = Property.name p) P) = Some p.
Proof.
  induction P as [|q P IH]; intros Hnd Hin; [by apply elem_of_nil in Hin|].
  cbn [map] in Hnd. apply NoDup_cons in Hnd as [Hq Hnd].
  rewrite filter_cons. apply elem_of_cons in Hin as [->|Hin].
  - rewrite decide_True by done.
    destruct (filter (fun q0 => Property.name q0 = Property.name q) P) as [|r l] eqn:E;
      [done|].
    assert (r ∈ filter (fun q0 => Property.name q0 = Property.name q) P) as Hr
      by (rewrite E; left).
    apply list_elem_of_filter in Hr as [Heq Hr]. exfalso. apply Hq. rewrite <- Heq.
    apply list_elem_of_fmap. eauto.
  - rewrite decide_False; [by apply IH|].
    intros Heq. apply Hq. rewrite Heq. apply list_elem_of_fmap. eauto.
Qed.

(** C6: a function whose parameter list is absent or empty has a schema
    with the [parameters] block present: type ["object"], no property and
    an empty [required] list. *)
Theorem to_dict_no_parameters f :
  Function.parameters f = None \/ Function.parameters f = Some [] ->
  Function.to_dict f !! "parameters" =
    Some (PyDict (<["type" := PyStr "object"]>
                  (<["properties" := PyDict ∅]>
                   (<["required" := PyList []]> ∅)))).
Proof.
  intros H. rewrite to_dict_parameters_block. by destruct H as [-> | ->].
Qed.

Lemma to_dict_no_parameters_witness :
  (Function.parameters Samples.f_empty = None \/
   Function.parameters Samples.f_empty = Some []) /\
  Function.to_dict Samples.f_empty !! "parameters" =
    Some (PyDict (<["type" := PyStr "object"]>
                  (<["properties" := PyDict ∅]>
                   (<["required" := PyList []]> ∅)))).
Proof.
  split; [right; reflexivity|].
  apply (to_dict_no_parameters Samples.f_empty). right. reflexivity.
Defined.

(** C7 as stated fails: with two parameters named [x] the schema has one
    entry, and it is not the entry of the first of them. *)
Lemma to_dict_same_name_counterexample :
  Function.to_dict Samples.f_same_name !! "parameters" =
    Some (Function.parameters_block
            (<["x" := Function.property_entry
                        (Property.mk "x" "integer" false (Some "again"))]> ∅)
            ["x"]) /\
  size (Function.properties_of Samples.same_name) = 1 /\
  length Samples.same_name = 2 /\
  Function.properties_of Samples.same_name !! "x" <>
    Some (Function.property_entry (Property.mk "x" "string" true None)).
Proof.
  split; [|split; [|split]]; [reflexivity | reflexivity | reflexivity |].
  vm_compute. discriminate.
Qed.

(** C7, amended: for a non-empty parameter list [P] the [parameters] block
    has one property entry per distinct name, the entry giving the type and
    the description of the last parameter declared under that name; when
    the names of [P] are pairwise distinct that is one entry per parameter,
    each with its own type and description.  The [required] list is the
    names of the parameters of [P] with [required] set, in declaration
    order. *)
Theorem to_dict_with_parameters f P :
  Function.parameters f = Some P ->
  P <> [] ->
  exists props : gmap string pyval,
    Function.to_dict f !! "parameters" =
      Some (PyDict (<["type" := PyStr "object"]>
                    (<["properties" := PyDict props]>
                     (<["required" :=
                          PyList (map PyStr
                                    (map Property.name
                                         (filter (fun p => Property.required p = true) P)))]>
                      ∅)))) /\
    (forall n, is_Some (props !! n) <-> n ∈ map Property.name P) /\
    (forall n,
       props !! n =
         (fun p => PyDict (<["type" := PyStr (Property.type p)]>
                           (<["description" := of_optional_str (Property.description p)]> ∅)))
           <$> last (filter (fun p => Property.name p = n) P)) /\
    (NoDup (map Property.name P) ->
       size props = length P /\
       forall p, p ∈ P ->
         props !! Property.name p =
           Some (PyDict (<["type" := PyStr (Property.type p)]>
                         (<["description" := of_optional_str (Property.description p)]> ∅)))).
Proof.
  intros HP _. exists (Function.properties_of P).
  split; [by rewrite to_dict_parameters_block, HP|].
  split; [|split].
  - intros n. rewrite properties_of_lookup, fmap_is_Some, last_is_Some.
    rewrite list_elem_of_fmap. split.
    + intros Hne. destruct (filter _ P) as [|q l] eqn:E; [done|].
      assert (q ∈ filter (fun p => Property.name p = n) P) as Hq by (rewrite E; left).
      apply list_elem_of_filter in Hq as [Hq1 Hq2]. eauto.
    + intros (q & -> & Hq) E.
      assert (q ∈ filter (fun p => Property.name p = Property.name q) P) as Hq'
        by (by apply list_elem_of_filter).
      rewrite E in Hq'. by apply elem_of_nil in Hq'.
  - intros n. apply properties_of_lookup.
  - intros Hnd. split.
    + unfold Function.properties_of. rewrite foldl_properties_size; [done..|].
      intros p _. apply lookup_empty.
    + intros p Hp. by rewrite properties_of_lookup, last_filter_unique.
Qed.

Lemma to_dict_with_parameters_witness :
  exists props : gmap string pyval,
    Function.to_dict Samples.f_x !! "parameters" =
      Some (PyDict (<["type" := PyStr "object"]>
                    (<["properties" := PyDict props]>
                     (<["required" := PyList [PyStr "x"]]> ∅)))) /\
    props !! "x" =
      Some (PyDict (<["type" := PyStr "string"]> (<["description" := PyNone]> ∅))).
Proof.
  destruct (to_dict_with_parameters Samples.f_x
              [Property.mk "x" "string" true None] eq_refl ltac:(discriminate))
    as (props & Hblock & _ & Hlast & _).
  exists props. split; [exact Hblock|]. exact (Hlast "x").
Defined.

End Schema.

(** ** Validation and the exception boundary *)

Section Dispatch.

Variable format_exc : exn -> string.

Implicit Types (f : Function.t) (fc : FunctionCall.t) (P : list Property.t).
Implicit Types (d : gmap string pyval) (e : exn).

Lemma string_app_assoc (s1 s2 s3 : string) : (s1 ++ s2) ++ s3 = s1 ++ s2 ++ s3.
Proof.
  induction s1 as [|c s1 IH]; [reflexivity | exact (f_equal (String c) IH)].
Qed.

Lemma arguments_truthy_false (a : option (gmap string pyval)) :
  Function.arguments_truthy a = false <-> a = None \/ a = Some ∅.
Proof.
  destruct a as [d|]; cbn.
  - rewrite negb_false_iff, bool_decide_eq_true. split.
    + intros ->. by right.
    + by intros [[=] | [= ->]].
  - split; [by left | done].
Qed.

Lemma arguments_truthy_true (a : option (gmap string pyval)) :
  Function.arguments_truthy a = true <-> exists d, a = Some d /\ d <> ∅.
Proof.
  destruct a as [d|]; cbn.
  - rewrite negb_true_iff, bool_decide_eq_false. split.
    + intros Hne. by exists d.
    + by intros (d' & [= <-] & Hne).
  - split; [done | by intros (d' & [=] & _)].
Qed.

Lemma parameters_truthy_false (ps : option (list Property.t)) :
  Function.parameters_truthy ps = false <-> ps = None \/ ps = Some [].
Proof.
  destruct ps as [[|p P]|]; cbn; split; try done; auto.
  by intros [[=] | [=]].
Qed.

(** What [run_catch_exceptions] makes of an exception that derives from
    [Exception]. *)
Lemma run_catch_exceptions_caught f (call : option FunctionCall.t) e :
  Function.run f call = Raise e ->
  is_Exception e = true ->
  Function.run_catch_exceptions format_exc f call =
    Return (PyStr (exn_str e ++ nl ++ format_exc e)).
Proof.
  intros Hrun He. unfold Function.run_catch_exceptions. by rewrite Hrun, He.
Qed.

Lemma check_required_raise f (a : option (gmap string pyval)) e :
  Function.check_required f a = Raise e -> is_Exception e = true.
Proof.
  unfold Function.check_required.
  destruct (Function.parameters f) as [[|p P]|]; try discriminate.
  destruct a as [d|].
  - destruct (Function.missing_parameters (p :: P) d); [discriminate|].
    by intros [= <-].
  - destruct (existsb Property.required (p :: P)); [|discriminate].
    by intros [= <-].
Qed.

(** An exception leaving [run] was raised by the validation, and derives
    from [Exception], or by the callable. *)
Lemma run_raise_origin f (call : option FunctionCall.t) e :
  Function.run f call = Raise e ->
  is_Exception e = true \/ exists d, Function.func f d = Raise e.
Proof.
  unfold Function.run. destruct call as [fc|]; [|intros [= <-]; by left].
  destruct (negb _ && _); [intros [= <-]; by left|].
  destruct (_ && negb _); [intros [= <-]; by left|].
  destruct (Function.check_required f _) as [[]|e'] eqn:Hcheck.
  - change (Function.call_func f (FunctionCall.arguments fc) = Raise e ->
            is_Exception e = true \/ exists d, Function.func f d = Raise e).
    unfold Function.call_func. destruct (FunctionCall.arguments fc) as [d|].
    + intros H. right. by exists d.
    + intros [= <-]. by left.
  - intros [= <-]. left. by apply check_required_raise in Hcheck.
Qed.

(** C1 as stated fails on its own example: for a function requiring [x]
    and a call with empty arguments the error is the fixed text, in which
    [x] does not occur. *)
Lemma run_empty_arguments_counterexample :
  Function.run Samples.f_x (Some Samples.call_empty) =
    Raise (mk_exn MissingParametersException "Missing parameters") /\
  contains "x" "Missing parameters" = false /\
  Function.missing_parameters [Property.mk "x" "string" true None] ∅ = ["x"] /\
  Function.run_catch_exceptions Samples.format_exc Samples.f_x (Some Samples.call_empty) =
    Return (PyStr ("Missing parameters" ++ nl ++
                   "Traceback (most recent call last):" ++ nl ++
                   "Missing parameters" ++ nl)).
Proof. repeat split; reflexivity. Qed.

(** C1, amended: for a function that declares a required parameter, a call
    whose arguments are absent or empty fails with [MissingParameters] and
    the fixed message ["Missing parameters"]; a call with a non-empty
    mapping that lacks required names fails with [MissingParameters] and
    the message ["Missing parameter(s): "] followed by exactly the missing
    required names, joined by [", "] in declaration order.  In both cases
    [run_catch_exceptions] returns the message, a line feed and the stack
    trace as a string instead of raising. *)
Theorem run_missing_parameters f fc P :
  Function.parameters f = Some P ->
  (exists p, p ∈ P /\ Property.required p = true) ->
  let missing d :=
    map Property.name
      (filter (fun p => Property.required p = true /\ d !! Property.name p = None) P) in
  (FunctionCall.arguments fc = None \/ FunctionCall.arguments fc = Some ∅ ->
     Function.run f (Some fc) =
       Raise (mk_exn MissingParametersException "Missing parameters") /\
     Function.run_catch_exceptions format_exc f (Some fc) =
       Return (PyStr ("Missing parameters" ++ nl ++
                      format_exc (mk_exn MissingParametersException "Missing parameters")))) /\
  (forall d,
     FunctionCall.arguments fc = Some d -> d <> ∅ -> missing d <> [] ->
     Function.run f (Some fc) =
       Raise (mk_exn MissingParametersException
                ("Missing parameter(s): " ++ join ", " (missing d))) /\
     Function.run_catch_exceptions format_exc f (Some fc) =
       Return (PyStr ("Missing parameter(s): " ++ join ", " (missing d) ++ nl ++
                      format_exc (mk_exn MissingParametersException
                                    ("Missing parameter(s): " ++ join ", " (missing d)))))).
Proof.
  intros HP (p0 & Hp0 & _) missing.
  assert (Function.parameters_truthy (Function.parameters f) = true) as Htruthy.
  { rewrite HP. destruct P; [by apply elem_of_nil in Hp0 | reflexivity]. }
  split.
  - intros Hargs. apply arguments_truthy_false in Hargs.
    assert (Function.run f (Some fc) =
              Raise (mk_exn MissingParametersException "Missing parameters")) as Hrun.
    { unfold Function.run. by rewrite Hargs, Htruthy. }
    split; [exact Hrun|]. by apply (run_catch_exceptions_caught _ _ _ Hrun).
  - intros d Hd Hne Hmiss.
    assert (Function.arguments_truthy (FunctionCall.arguments fc) = true) as Hargs.
    { apply arguments_truthy_true. eauto. }
    assert (Function.run f (Some fc) =
              Raise (mk_exn MissingParametersException
                       ("Missing parameter(s): " ++ join ", " (missing d)))) as Hrun.
    { unfold Function.run. rewrite Hargs, Htruthy. cbn [negb andb].
      unfold Function.check_required. rewrite HP, Hd.
      destruct P as [|p P']; [by apply elem_of_nil in Hp0|].
      fold (Function.missing_parameters (p :: P') d) in *.
      change (missing d) with (Function.missing_parameters (p :: P') d) in *.
      by destruct (Function.missing_parameters (p :: P') d). }
    split; [exact Hrun|].
    rewrite (run_catch_exceptions_caught _ _ _ Hrun eq_refl).
    cbn [exn_str]. by rewrite string_app_assoc.
Qed.

(** C3 as stated fails: an exception of the callable that does not derive
    from [Exception] passes through [run_catch_exceptions]. *)
Lemma run_catch_exceptions_interrupt_counterexample :
  Function.run_catch_exceptions Samples.format_exc Samples.f_interrupted
    (Some Samples.call_h) = Raise (mk_exn KeyboardInterrupt "").
Proof. reflexivity. Qed.

(** C3, amended: for a function whose callable raises only exceptions that
    derive from [Exception], [run_catch_exceptions] never raises: a value
    returned by [run] is returned, and a failure raised by the validation
    or by the callable is returned as the string made of the error's
    message, a line feed and the stack trace. *)
Theorem run_catch_exceptions_contains f (call : option FunctionCall.t) :
  (forall d e, Function.func f d = Raise e -> is_Exception e = true) ->
  match Function.run f call with
  | Return v => Function.run_catch_exceptions format_exc f call = Return v
  | Raise e =>
      Function.run_catch_exceptions format_exc f call =
        Return (PyStr (exn_str e ++ nl ++ format_exc e))
  end.
Proof.
  intros Hfunc. destruct (Function.run f call) as [v|e] eqn:Hrun.
  - unfold Function.run_catch_exceptions. by rewrite Hrun.
  - apply run_catch_exceptions_caught; [done|].
    destruct (run_raise_origin _ _ _ Hrun) as [He | [d Hd]]; [done | eauto].
Qed.

(** C8: for a function that declares no parameter, a call whose argument
    mapping is present and not empty fails with [UnexpectedParameters], and
    [run_catch_exceptions] returns that failure as a string: the message, a
    line feed and the stack trace. *)
Theorem run_unexpected_parameters f fc d :
  Function.parameters f = None \/ Function.parameters f = Some [] ->
  FunctionCall.arguments fc = Some d ->
  d <> ∅ ->
  Function.run f (Some fc) =
    Raise (mk_exn UnexpectedParametersException "Unexpected parameters") /\
  Function.run_catch_exceptions format_exc f (Some fc) =
    Return (PyStr ("Unexpected parameters" ++ nl ++
                   format_exc (mk_exn UnexpectedParametersException
                                 "Unexpected parameters"))).
Proof.
  intros HP Hd Hne. apply parameters_truthy_false in HP.
  assert (Function.arguments_truthy (FunctionCall.arguments fc) = true) as Hargs.
  { apply arguments_truthy_true. eauto. }
  assert (Function.run f (Some fc) =
            Raise (mk_exn UnexpectedParametersException "Unexpected parameters")) as Hrun.
  { unfold Function.run. by rewrite Hargs, HP. }
  split; [exact Hrun|]. by apply (run_catch_exceptions_caught _ _ _ Hrun).
Qed.

End Dispatch.

Lemma run_missing_parameters_witness :
  Function.run Samples.f_x (Some Samples.call_y) =
    Raise (mk_exn MissingParametersException "Missing parameter(s): x") /\
  Function.run Samples.f_x (Some Samples.call_empty) =
    Raise (mk_exn MissingParametersException "Missing parameters").
Proof.
  pose proof (run_missing_parameters Samples.format_exc Samples.f_x Samples.call_y
                [Property.mk "x" "string" true None] eq_refl
                ltac:(eexists; split; [left | reflexivity])) as [_ Hnamed].
  pose proof (run_missing_parameters Samples.format_exc Samples.f_x Samples.call_empty
                [Property.mk "x" "string" true None] eq_refl
                ltac:(eexists; split; [left | reflexivity])) as [Hfixed _].
  split.
  - exact (proj1 (Hnamed (<["y" := PyInt 1]> ∅) eq_refl
                    ltac:(vm_compute; discriminate) ltac:(vm_compute; discriminate))).
  - exact (proj1 (Hfixed (or_intror eq_refl))).
Defined.

Lemma run_unexpected_parameters_witness :
  Function.run Samples.f_plain (Some Samples.call_a) =
    Raise (mk_exn UnexpectedParametersException "Unexpected parameters") /\
  Function.run_catch_exceptions Samples.format_exc Samples.f_plain (Some Samples.call_a) =
    Return (PyStr ("Unexpected parameters" ++ nl ++
                   Samples.format_exc (mk_exn UnexpectedParametersException
                                         "Unexpected parameters"))).
Proof.
  apply (run_unexpected_parameters Samples.format_exc Samples.f_plain Samples.call_a
           (<["a" := PyInt 1]> ∅)).
  - left. reflexivity.
  - reflexivity.
  - vm_compute. discriminate.
Defined.

Lemma run_catch_exceptions_contains_witness :
  Function.run_catch_exceptions Samples.format_exc Samples.f_plain (Some Samples.call_a) =
    Return (PyStr ("Unexpected parameters" ++ nl ++
                   "Traceback (most recent call last):" ++ nl ++
                   "Unexpected parameters" ++ nl)).
Proof.
  exact (run_catch_exceptions_contains Samples.format_exc Samples.f_plain
           (Some Samples.call_a) ltac:(intros d e; discriminate)).
Defined.

(** ** The batch of tool outputs *)

Section Batch.

Local Open Scope list_scope.

Variable format_exc : exn -> string.
Variable json_loads : string -> outcome pyval.

Implicit Types (a : AIAssistant.t) (fs : list Function.t) (fc : FunctionCall.t).
Implicit Types (t : ToolCall.t) (ts : list ToolCall.t) (acc outs : list ToolOutput.t).

Lemma function_call_of_fields t fc :
  AIAssistant.function_call_of json_loads t = Return fc ->
  FunctionCall.call_id fc = ToolCall.id t /\
  FunctionCall.name fc = ToolFunction.name (ToolCall.function t).
Proof.
  unfold AIAssistant.function_call_of.
  destruct (match ToolFunction.arguments (ToolCall.function t) with
            | EmptyString => _ | _ => _ end) as [v|e]; [|discriminate].
  cbn. destruct (AIAssistant.validate_arguments v) as [o|e]; [|discriminate].
  cbn. by intros [= <-].
Qed.

(** The loop over the functions only adds outputs, one for each function of
    the requested name, all for the call at hand. *)
Lemma for_functions_shape fs fc (b b' : bool) acc outs :
  AIAssistant.for_functions format_exc fs fc (b, acc) = Return (b', outs) ->
  exists rs,
    outs = acc ++ rs /\
    length rs = length (AIAssistant.named (FunctionCall.name fc) fs) /\
    Forall (fun o => ToolOutput.tool_call_id o = FunctionCall.call_id fc) rs /\
    b' = match rs with [] => b | _ => true end.
Proof.
  revert b acc. induction fs as [|f fs IH]; intros b acc; cbn [AIAssistant.for_functions].
  - intros [= <- <-]. exists []. by rewrite app_nil_r.
  - unfold AIAssistant.named. rewrite filter_cons.
    destruct (String.eqb_spec (Function.name f) (FunctionCall.name fc)) as [Heq|Hne].
    + rewrite decide_True by done.
      destruct (Function.run_catch_exceptions format_exc f (Some fc)) as [v|e];
        [|discriminate].
      cbn. intros H. apply IH in H as (rs & -> & Hlen & Hall & ->).
      exists (ToolOutput.mk (FunctionCall.call_id fc) v :: rs).
      rewrite <- app_assoc. cbn. repeat split; [by rewrite Hlen | by constructor |].
      by destruct rs.
    + rewrite decide_False by done. apply IH.
Qed.



Lemma for_tool_shape a t acc outs :
  AIAssistant.for_tool format_exc json_loads a t acc = Return outs ->
  exists rs,
    outs = acc ++ rs /\
    map ToolOutput.tool_call_id rs = replicate (AIAssistant.copies a t) (ToolCall.id t).
Proof.
  unfold AIAssistant.for_tool, AIAssistant.dispatch.
  destruct (AIAssistant.function_call_of json_loads t) as [fc|e] eqn:Hfc; [|discriminate].
  apply function_call_of_fields in Hfc as [Hid Hname]. cbn.
  destruct (AIAssistant.for_functions _ _ _ _) as [[b' outs']|e] eqn:Hloop; [|discriminate].
  apply for_functions_shape in Hloop as (rs & -> & Hlen & Hall & ->). cbn.
  unfold AIAssistant.copies. rewrite <- Hname, <- Hlen, <- Hid.
  assert (map ToolOutput.tool_call_id rs = replicate (length rs) (FunctionCall.call_id fc))
    as Hids.
  { clear Hlen. induction Hall as [|o rs Ho _ IH]; [done|]. cbn. by rewrite Ho, IH. }
  destruct rs as [|o rs].
  - intros [= <-]. exists [AIAssistant.not_found fc].
    split; [by rewrite app_nil_r | reflexivity].
  - intros [= <-]. exists (o :: rs). split; [done|].
    rewrite Hids. cbn [length]. by rewrite Nat.max_r by lia.
Qed.

Lemma for_tools_shape a ts acc outs :
  AIAssistant.for_tools format_exc json_loads a ts acc = Return outs ->
  exists rs,
    outs = acc ++ rs /\
    map ToolOutput.tool_call_id rs =
      concat (map (fun t => replicate (AIAssistant.copies a t) (ToolCall.id t)) ts).
Proof.
  revert acc. induction ts as [|t ts IH]; intros acc; cbn [AIAssistant.for_tools].
  - intros [= <-]. exists []. by rewrite app_nil_r.
  - destruct (AIAssistant.for_tool _ _ _ _ _) as [outs1|e] eqn:Htool; [|discriminate].
    apply for_tool_shape in Htool as (rs1 & -> & Hids1). cbn.
    intros H. apply IH in H as (rs2 & -> & Hids2).
    exists (rs1 ++ rs2). split; [by rewrite app_assoc|].
    cbn. by rewrite map_app, Hids1, Hids2.
Qed.






Lemma for_tools_app a ts1 ts2 acc :
  AIAssistant.for_tools format_exc json_loads a (ts1 ++ ts2) acc =
    AIAssistant.for_tools format_exc json_loads a ts1 acc ≫=
      AIAssistant.for_tools format_exc json_loads a ts2.
Proof.
  revert acc. induction ts1 as [|t ts1 IH]; intros acc; cbn [AIAssistant.for_tools app];
    [reflexivity|].
  destruct (AIAssistant.for_tool _ _ _ _ acc) as [outs|e]; [|reflexivity].
  cbn. apply IH.
Qed.






End Batch.



(** ** The rendering of a message *)

Section Rendering.

Variable files_retrieve : string -> FileObject.t.
Variable files_content : string -> string.

Implicit Types (a : AIAssistant.t) (m : ThreadMessage.t).
Implicit Types (anns : list Annotation.t) (st : AIAssistant.format_state).









End Rendering.



(** ** The polling loop *)

Section Loop.

Variable format_exc : exn -> string.
Variable json_loads : string -> outcome pyval.
Variable files_retrieve : string -> FileObject.t.
Variable files_content : string -> string.
Variable str_last_error : option LastError.t -> string.
Variable repr_function : ToolFunction.t -> string.
Variable remote : Type.
Variable messages_create :
  remote -> string -> string -> string -> list string -> remote.
Variable messages_list : remote -> string -> list ThreadMessage.t.
Variable runs_create : remote -> string -> string -> option string -> Run.t * remote.
Variable runs_retrieve : remote -> string -> string -> Run.t * remote.
Variable runs_submit_tool_outputs :
  remote -> string -> string -> list ToolOutput.t -> Run.t * remote.

Implicit Types (a : AIAssistant.t) (r : remote) (run : Run.t) (fuel : nat).

(** A run fetched as failed ends the loop with a [RuntimeError] that holds
    the text of its last error. *)
Lemma poll_failed fuel a (thread_id : string) r run run1 r1 :
  Run.status run <> "completed" ->
  runs_retrieve r thread_id (Run.id run) = (run1, r1) ->
  Run.status run1 = "failed" ->
  AIAssistant.poll format_exc json_loads str_last_error repr_function remote
    runs_retrieve runs_submit_tool_outputs (S fuel) a thread_id r run =
    Some (Raise (mk_exn RuntimeError
                   ("Run failed with the following error "
                      ++ str_last_error (Run.last_error run1)))).
Proof.
  intros Hrun Hget Hfailed. cbn [AIAssistant.poll].
  destruct (String.eqb_spec (Run.status run) "completed") as [Heq|_]; [done|].
  by rewrite Hget, Hfailed.
Qed.

(** A run fetched as expired with pending calls ends the loop with a
    [RuntimeError] that holds the rendering of the list of their function
    objects. *)
Lemma poll_expired fuel a (thread_id : string) r run run1 r1 (ts : list ToolCall.t) :
  Run.status run <> "completed" ->
  runs_retrieve r thread_id (Run.id run) = (run1, r1) ->
  Run.status run1 = "expired" ->
  Run.required_action run1 = Some ts ->
  AIAssistant.poll format_exc json_loads str_last_error repr_function remote
    runs_retrieve runs_submit_tool_outputs (S fuel) a thread_id r run =
    Some (Raise (mk_exn RuntimeError
                   ("Run expired when calling "
                      ++ str_of_list repr_function (map ToolCall.function ts)))).
Proof.
  intros Hrun Hget Hexpired Hts. cbn [AIAssistant.poll].
  destruct (String.eqb_spec (Run.status run) "completed") as [Heq|_]; [done|].
  rewrite Hget, Hexpired. cbn. unfold AIAssistant.get_required_functions_names.
  by rewrite Hts.
Qed.

(** An exception that ends the loop leaves [create_response]. *)
Lemma create_response_propagates fuel a r (thread_id content : string)
    (message_files : option (list string)) (run_instructions : option string) run r1 e :
  runs_create
    (messages_create r thread_id "user" content
       (match message_files with Some (f :: fs) => f :: fs | _ => [] end))
    thread_id (AIAssistant.assistant_id a) run_instructions = (run, r1) ->
  AIAssistant.poll format_exc json_loads str_last_error repr_function remote
    runs_retrieve runs_submit_tool_outputs fuel a thread_id r1 run = Some (Raise e) ->
  AIAssistant.create_response format_exc json_loads files_retrieve files_content
    str_last_error repr_function remote messages_create messages_list runs_create
    runs_retrieve runs_submit_tool_outputs fuel a r thread_id content message_files
    run_instructions =
    Some (Raise e).
Proof.
  intros Hcreate Hpoll. unfold AIAssistant.create_response. by rewrite Hcreate, Hpoll.
Qed.

End Loop.


(** The same loop on a run fetched as failed. *)
Example poll_failed_sample :
  Samples.poll 1 Samples.single "thread_1" [Samples.failed] Samples.queued =
    Some (Raise (mk_exn RuntimeError
                   "Run failed with the following error code='server_error' message='boom'")).
Proof. reflexivity. Qed.

(** * Further properties *)

(** ** Validation, continued *)

Section MoreDispatch.

Variable format_exc : exn -> string.

Implicit Types (f : Function.t) (fc : FunctionCall.t) (P : list Property.t).
Implicit Types (d : gmap string pyval).

Lemma missing_parameters_nil P d :
  (forall p, p ∈ P -> Property.required p = true -> is_Some (d !! Property.name p)) ->
  Function.missing_parameters P d = [].
Proof.
  intros Hall. unfold Function.missing_parameters.
  destruct (filter _ P) as [|q l] eqn:E; [reflexivity|].
  assert (q ∈ filter (fun p => Property.required p = true /\ d !! Property.name p = None) P)
    as Hq by (rewrite E; left).
  apply list_elem_of_filter in Hq as [[Hreq Hnone] Hq].
  destruct (Hall q Hq Hreq) as [v Hv]. congruence.
Qed.

Lemma run_validated f fc P d :
  Function.parameters f = Some P ->
  P <> [] ->
  FunctionCall.arguments fc = Some d ->
  d <> ∅ ->
  (forall p, p ∈ P -> Property.required p = true -> is_Some (d !! Property.name p)) ->
  Function.run f (Some fc) = Function.func f d.
Proof.
  intros HP Hne Hd Hd' Hall. unfold Function.run.
  assert (Function.arguments_truthy (FunctionCall.arguments fc) = true) as ->.
  { apply arguments_truthy_true. eauto. }
  assert (Function.parameters_truthy (Function.parameters f) = true) as ->.
  { rewrite HP. by destruct P. }
  cbn [negb andb]. unfold Function.check_required. rewrite HP, Hd.
  destruct P as [|p P']; [done|].
  by rewrite (missing_parameters_nil _ _ Hall).
Qed.

(** X1: a call whose mapping is not empty and holds every required name
    passes the validation, whatever other keys it holds and whichever
    optional parameters it leaves out, and [run] is then the callable
    applied to the whole mapping. *)
Theorem run_invokes_func f fc P d :
  Function.parameters f = Some P ->
  P <> [] ->
  FunctionCall.arguments fc = Some d ->
  d <> ∅ ->
  (forall p, p ∈ P -> Property.required p = true -> is_Some (d !! Property.name p)) ->
  Function.run f (Some fc) = Function.func f d.
Proof. apply run_validated. Qed.

(** X2: a function without parameters runs on the empty mapping; on
    absent arguments the unpacking fails with a [TypeError] before the
    callable, and [run_catch_exceptions] returns that failure as text. *)
Theorem run_without_parameters f fc :
  Function.parameters f = None \/ Function.parameters f = Some [] ->
  (FunctionCall.arguments fc = Some ∅ -> Function.run f (Some fc) = Function.func f ∅) /\
  (FunctionCall.arguments fc = None ->
     exists e,
       exn_cls e = TypeError /\
       Function.run f (Some fc) = Raise e /\
       Function.run_catch_exceptions format_exc f (Some fc) =
         Return (PyStr (exn_str e ++ nl ++ format_exc e))).
Proof.
  intros HP. pose proof (proj2 (parameters_truthy_false _) HP) as Hfalsy.
  split.
  - intros Hd. unfold Function.run. rewrite Hd, Hfalsy. cbn.
    unfold Function.check_required. by destruct HP as [-> | ->].
  - intros Hd. eexists (mk_exn TypeError _).
    assert (Function.run f (Some fc) =
              Raise (mk_exn TypeError "argument after ** must be a mapping, not NoneType"))
      as Hrun.
    { unfold Function.run. rewrite Hd, Hfalsy. cbn.
      unfold Function.check_required. by destruct HP as [-> | ->]. }
    split; [reflexivity|]. split; [exact Hrun|].
    by apply (run_catch_exceptions_caught _ _ _ _ Hrun).
Qed.

(** X3: in the schema of any function every name of the [required] list
    is a key of [properties]. *)
Theorem to_dict_required_are_properties f (block props : gmap string pyval)
    (req : list pyval) (n : string) :
  Function.to_dict f !! "parameters" = Some (PyDict block) ->
  block !! "required" = Some (PyList req) ->
  block !! "properties" = Some (PyDict props) ->
  PyStr n ∈ req ->
  is_Some (props !! n).
Proof.
  rewrite to_dict_parameters_block. intros [= Hblock].
  destruct (Function.parameters f) as [P|]; unfold Function.parameters_block in Hblock;
    injection Hblock as <-; intros Hreq Hprops Hn.
  - rewrite lookup_insert_ne, lookup_insert_ne, lookup_insert_eq in Hreq by done.
    rewrite lookup_insert_ne, lookup_insert_eq in Hprops by done.
    injection Hreq as <-. injection Hprops as <-.
    apply list_elem_of_fmap in Hn as (n' & [= <-] & Hn).
    unfold Function.required_of in Hn.
    apply list_elem_of_fmap in Hn as (p & -> & Hp).
    apply list_elem_of_filter in Hp as [_ Hp].
    rewrite properties_of_lookup, fmap_is_Some, last_is_Some. intros E.
    assert (p ∈ filter (fun q => Property.name q = Property.name p) P) as Hp'
      by (by apply list_elem_of_filter).
    rewrite E in Hp'. by apply elem_of_nil in Hp'.
  - rewrite lookup_insert_ne, lookup_insert_ne, lookup_insert_eq in Hreq by done.
    injection Hreq as <-. by apply elem_of_nil in Hn.
Qed.

End MoreDispatch.

Lemma run_invokes_func_witness :
  Function.run Samples.f_x (Some Samples.call_xz) = Return (PyStr "ok").
Proof.
  apply (run_invokes_func Samples.f_x Samples.call_xz [Property.mk "x" "string" true None]
           (<["x" := PyStr "v"]> (<["z" := PyInt 0]> ∅)) eq_refl).
  - discriminate.
  - reflexivity.
  - vm_compute. discriminate.
  - intros p Hp _. apply list_elem_of_singleton in Hp as ->. by eexists.
Defined.

Lemma run_without_parameters_witness :
  Function.run Samples.f_plain (Some (FunctionCall.mk "call_4" "g" (Some ∅))) =
    Return (PyStr "ok").
Proof.
  exact (proj1 (run_without_parameters Samples.format_exc Samples.f_plain
                  (FunctionCall.mk "call_4" "g" (Some ∅)) (or_introl eq_refl)) eq_refl).
Defined.

Lemma to_dict_required_are_properties_witness :
  is_Some (Function.properties_of [Property.mk "x" "string" true None] !! "x").
Proof.
  apply (to_dict_required_are_properties Samples.f_x
           (<["type" := PyStr "object"]>
            (<["properties" := PyDict (Function.properties_of
                                         [Property.mk "x" "string" true None])]>
             (<["required" := PyList [PyStr "x"]]> ∅)))
           (Function.properties_of [Property.mk "x" "string" true None])
           [PyStr "x"] "x"); try reflexivity.
  left.
Defined.

(** ** The batch of tool outputs, continued *)

Section MoreBatch.

Local Open Scope list_scope.

Variable format_exc : exn -> string.
Variable json_loads : string -> outcome pyval.

Implicit Types (a : AIAssistant.t) (fs : list Function.t) (fc : FunctionCall.t).
Implicit Types (t : ToolCall.t) (ts : list ToolCall.t) (acc outs : list ToolOutput.t).

Lemma for_functions_results fs fc (b : bool) acc (vs : list pyval) :
  Forall2 (fun f v => Function.run_catch_exceptions format_exc f (Some fc) = Return v)
    (AIAssistant.named (FunctionCall.name fc) fs) vs ->
  AIAssistant.for_functions format_exc fs fc (b, acc) =
    Return (match vs with [] => b | _ => true end,
            acc ++ map (ToolOutput.mk (FunctionCall.call_id fc)) vs).
Proof.
  revert b acc vs. induction fs as [|f fs IH]; intros b acc vs;
    cbn [AIAssistant.for_functions].
  - intros Hvs. apply Forall2_nil_inv_l in Hvs as ->. by rewrite app_nil_r.
  - unfold AIAssistant.named. rewrite filter_cons.
    destruct (String.eqb_spec (Function.name f) (FunctionCall.name fc)) as [Heq|Hne].
    + rewrite decide_True by done. intros Hvs.
      apply Forall2_cons_inv_l in Hvs as (v & vs' & Hv & Hvs' & ->).
      rewrite Hv. cbn. rewrite (IH true _ vs' Hvs'). rewrite <- app_assoc. cbn.
      by destruct vs'.
    + rewrite decide_False by done. apply IH.
Qed.

(** X4: whatever the registry, a batch lists, call after call in the order
    of the pending calls, one output per registered function that bears
    the requested name, or a single one when there is none, each under the
    id of its call. *)
Theorem create_tool_outputs_ids a (run : Run.t) ts outs :
  Run.required_action run = Some ts ->
  AIAssistant.create_tool_outputs format_exc json_loads a run = Return outs ->
  map ToolOutput.tool_call_id outs =
    concat (map (fun t =>
                   replicate
                     (Nat.max 1
                        (length (filter (fun f => Function.name f =
                                                    ToolFunction.name (ToolCall.function t))
                                   (AIAssistant.functions a))))
                     (ToolCall.id t)) ts).
Proof.
  intros Hrun. unfold AIAssistant.create_tool_outputs. rewrite Hrun. intros H.
  by apply for_tools_shape in H as (rs & -> & Hids).
Qed.

Lemma dispatch_results a fc acc (vs : list pyval) :
  Forall2 (fun f v => Function.run_catch_exceptions format_exc f (Some fc) = Return v)
    (AIAssistant.named (FunctionCall.name fc) (AIAssistant.functions a)) vs ->
  AIAssistant.dispatch format_exc a fc acc =
    Return (acc ++
              match vs with
              | [] => [AIAssistant.not_found fc]
              | _ => map (ToolOutput.mk (FunctionCall.call_id fc)) vs
              end).
Proof.
  intros Hvs. unfold AIAssistant.dispatch.
  rewrite (for_functions_results _ _ false acc vs Hvs). cbn.
  destruct vs; cbn; [by rewrite app_nil_r | reflexivity].
Qed.

(** X5: the outputs for one call are the results of [run_catch_exceptions]
    on the registered functions of its name, in the order of registration;
    the "not found" output appears only when there is no such function. *)
Theorem dispatch_runs_named a fc acc (vs : list pyval) :
  Forall2 (fun f v => Function.run_catch_exceptions format_exc f (Some fc) = Return v)
    (filter (fun f => Function.name f = FunctionCall.name fc) (AIAssistant.functions a)) vs ->
  AIAssistant.dispatch format_exc a fc acc =
    Return (acc ++
              match vs with
              | [] => [ToolOutput.mk (FunctionCall.call_id fc)
                         (PyStr ("Function " ++ FunctionCall.name fc ++ " not found")%string)]
              | _ => map (ToolOutput.mk (FunctionCall.call_id fc)) vs
              end).
Proof. apply dispatch_results. Qed.

Lemma create_tool_outputs_raises a (run : Run.t) before t after outs_before e :
  Run.required_action run = Some (before ++ t :: after) ->
  AIAssistant.for_tools format_exc json_loads a before [] = Return outs_before ->
  AIAssistant.function_call_of json_loads t = Raise e ->
  AIAssistant.create_tool_outputs format_exc json_loads a run = Raise e.
Proof.
  intros Hrun Hbefore Hfc. unfold AIAssistant.create_tool_outputs.
  rewrite Hrun, for_tools_app, Hbefore. cbn.
  unfold AIAssistant.for_tool. by rewrite Hfc.
Qed.

(** X6: a pending call whose arguments cannot be turned into a
    [FunctionCall] ends [create_tool_outputs] with that exception: the
    outputs computed for the calls before it are not returned and the
    calls after it are not looked at. *)
Theorem create_tool_outputs_decode_failure a (run : Run.t) before t after outs_before e :
  Run.required_action run = Some (before ++ t :: after) ->
  AIAssistant.for_tools format_exc json_loads a before [] = Return outs_before ->
  AIAssistant.function_call_of json_loads t = Raise e ->
  AIAssistant.create_tool_outputs format_exc json_loads a run = Raise e.
Proof. apply create_tool_outputs_raises. Qed.

(** How the arguments text of a tool call becomes the arguments of the
    [FunctionCall]. *)
Lemma function_call_of_empty t :
  ToolFunction.arguments (ToolCall.function t) = "" ->
  AIAssistant.function_call_of json_loads t =
    Return (FunctionCall.mk (ToolCall.id t) (ToolFunction.name (ToolCall.function t))
              (Some ∅)).
Proof. unfold AIAssistant.function_call_of. by intros ->. Qed.

(** X7: a tool call without arguments text, for a name borne by a single
    registered function that declares parameters, is answered with the
    text of the fixed "Missing parameters" failure: neither the decoder
    nor the callable has a say. *)
Theorem for_tool_empty_arguments a t f p P acc :
  ToolFunction.arguments (ToolCall.function t) = "" ->
  filter (fun g => Function.name g = ToolFunction.name (ToolCall.function t))
    (AIAssistant.functions a) = [f] ->
  Function.parameters f = Some (p :: P) ->
  AIAssistant.for_tool format_exc json_loads a t acc =
    Return (acc ++
              [ToolOutput.mk (ToolCall.id t)
                 (PyStr ("Missing parameters" ++ nl ++
                         format_exc (mk_exn MissingParametersException
                                       "Missing parameters"))%string)]).
Proof.
  intros Hargs Hnamed HP. unfold AIAssistant.for_tool.
  rewrite (function_call_of_empty t Hargs). cbn [mbind outcome_bind].
  rewrite (dispatch_results a _ acc
             [PyStr ("Missing parameters" ++ nl ++
                     format_exc (mk_exn MissingParametersException
                                   "Missing parameters"))%string]); [reflexivity|].
  unfold AIAssistant.named. cbn [FunctionCall.name]. rewrite Hnamed.
  constructor; [|constructor].
  unfold Function.run_catch_exceptions, Function.run. cbn. by rewrite HP.
Qed.

End MoreBatch.

Lemma create_tool_outputs_ids_witness :
  map ToolOutput.tool_call_id
    [ToolOutput.mk "call_1" (PyStr "ok"); ToolOutput.mk "call_1" (PyStr "ok")] =
    ["call_1"; "call_1"].
Proof.
  exact (create_tool_outputs_ids Samples.format_exc Samples.json_loads Samples.twice
           (Samples.run_with "requires_action" [Samples.tool_g]) [Samples.tool_g]
           _ eq_refl eq_refl).
Defined.

Lemma dispatch_runs_named_witness :
  AIAssistant.dispatch Samples.format_exc Samples.twice
    (FunctionCall.mk "call_1" "g" (Some ∅)) [] =
    Return [ToolOutput.mk "call_1" (PyStr "ok"); ToolOutput.mk "call_1" (PyStr "ok")].
Proof.
  apply (dispatch_runs_named Samples.format_exc Samples.twice
           (FunctionCall.mk "call_1" "g" (Some ∅)) [] [PyStr "ok"; PyStr "ok"]).
  repeat constructor.
Defined.

Lemma create_tool_outputs_decode_failure_witness :
  AIAssistant.create_tool_outputs Samples.format_exc Samples.json_loads Samples.single
    (Samples.run_with "requires_action" [Samples.tool_f; Samples.tool_broken; Samples.tool_g])
    = Raise (mk_exn JSONDecodeError "Expecting value").
Proof.
  apply (create_tool_outputs_decode_failure Samples.format_exc Samples.json_loads
           Samples.single _ [Samples.tool_f] Samples.tool_broken [Samples.tool_g]
           [ToolOutput.mk "call_2"
              (PyStr ("Missing parameters" ++ nl ++ "Traceback (most recent call last):"
                        ++ nl ++ "Missing parameters" ++ nl))]);
    reflexivity.
Defined.

Lemma for_tool_empty_arguments_witness :
  AIAssistant.for_tool Samples.format_exc Samples.json_loads Samples.single
    Samples.tool_f [] =
    Return [ToolOutput.mk "call_2"
              (PyStr ("Missing parameters" ++ nl ++
                      Samples.format_exc (mk_exn MissingParametersException
                                            "Missing parameters")))].
Proof.
  exact (for_tool_empty_arguments Samples.format_exc Samples.json_loads Samples.single
           Samples.tool_f Samples.f_x (Property.mk "x" "string" true None) [] []
           eq_refl eq_refl eq_refl).
Defined.

(** ** The rendering of a message, continued *)

Section PyStrings.







End PyStrings.

Section MoreRendering.

Variable files_retrieve : string -> FileObject.t.
Variable files_content : string -> string.

Implicit Types (a : AIAssistant.t) (m : ThreadMessage.t).
Implicit Types (anns : list Annotation.t) (st : AIAssistant.format_state).







Variable remote : Type.
Variable messages_list : remote -> string -> list ThreadMessage.t.

(** X12: [extract_run_message] renders the first listed message of the
    run, with its role before it, and looks at no later one; when the
    thread lists no message of the run it returns
    ["Assistant: No message found"]. *)
Theorem extract_run_message_first a (r : remote) (run : Run.t) (thread_id : string) :
  (forall before m after,
     messages_list r thread_id = (before ++ m :: after)%list ->
     Forall (fun m' => ThreadMessage.run_id m' <> Some (Run.id run)) before ->
     ThreadMessage.run_id m = Some (Run.id run) ->
     AIAssistant.extract_run_message files_retrieve files_content remote messages_list
       a r run thread_id =
       match AIAssistant.format_message files_retrieve files_content a m with
       | Return (text, files) => Return (ThreadMessage.role m ++ ": " ++ text, files)
       | Raise e => Raise e
       end) /\
  (Forall (fun m' => ThreadMessage.run_id m' <> Some (Run.id run))
     (messages_list r thread_id) ->
   AIAssistant.extract_run_message files_retrieve files_content remote messages_list
     a r run thread_id = Return ("Assistant: No message found", [])).
Proof.
  unfold AIAssistant.extract_run_message. split.
  - intros before m after -> Hbefore Hm.
    induction Hbefore as [|m' before Hm' _ IH]; cbn [app AIAssistant.first_of_run].
    + rewrite bool_decide_eq_true_2 by done.
      destruct (AIAssistant.format_message _ _ a m) as [[text files]|e]; reflexivity.
    + by rewrite bool_decide_eq_false_2.
  - induction 1 as [|m' l Hm' _ IH]; cbn [AIAssistant.first_of_run]; [reflexivity|].
    by rewrite bool_decide_eq_false_2.
Qed.

End MoreRendering.




Lemma extract_run_message_first_witness :
  AIAssistant.extract_run_message Samples.files_retrieve Samples.files_content
    Samples.script Samples.messages_list Samples.single [] Samples.queued "thread_1" =
    Return ("assistant: Done." ++ nl, []).
Proof.
  exact (proj1 (extract_run_message_first Samples.files_retrieve Samples.files_content
                  Samples.script Samples.messages_list Samples.single [] Samples.queued
                  "thread_1")
           [] Samples.plain_message [] eq_refl (List.Forall_nil _) eq_refl).
Defined.

(** ** The polling loop, continued *)

Section MoreLoop.

Variable format_exc : exn -> string.
Variable json_loads : string -> outcome pyval.
Variable str_last_error : option LastError.t -> string.
Variable repr_function : ToolFunction.t -> string.
Variable remote : Type.
Variable runs_retrieve : remote -> string -> string -> Run.t * remote.
Variable runs_submit_tool_outputs :
  remote -> string -> string -> list ToolOutput.t -> Run.t * remote.

Implicit Types (a : AIAssistant.t) (r : remote) (run : Run.t) (fuel : nat).

(** X13: a run that the loop returns is a completed run. *)
Theorem poll_returns_completed fuel a (thread_id : string) r run run' r' :
  AIAssistant.poll format_exc json_loads str_last_error repr_function remote
    runs_retrieve runs_submit_tool_outputs fuel a thread_id r run =
    Some (Return (run', r')) ->
  Run.status run' = "completed".
Proof.
  revert r run. induction fuel as [|fuel IH]; intros r run; cbn [AIAssistant.poll];
    destruct (String.eqb_spec (Run.status run) "completed") as [Hdone|Hnot];
    try (intros [= <- <-]; exact Hdone); try discriminate.
  destruct (runs_retrieve r thread_id (Run.id run)) as [run1 r1].
  destruct (String.eqb (Run.status run1) "failed"); [discriminate|].
  destruct (String.eqb (Run.status run1) "expired").
  { destruct (AIAssistant.get_required_functions_names a run1); discriminate. }
  destruct (String.eqb (Run.status run1) "requires_action"); [|apply IH].
  destruct (AIAssistant.create_tool_outputs format_exc json_loads a run1) as [outs|e];
    [|discriminate].
  destruct (runs_submit_tool_outputs r1 thread_id (Run.id run1) outs) as [run2 r2].
  apply IH.
Qed.

(** X14: the loop acts on four statuses only.  Against a service that
    answers every fetch with another status (["cancelled"], say) it never
    ends, whatever the number of iterations allowed. *)
Theorem poll_never_ends fuel a (thread_id : string) r run (status : string) :
  status <> "completed" -> status <> "failed" -> status <> "expired" ->
  status <> "requires_action" ->
  (forall r' run_id, Run.status (runs_retrieve r' thread_id run_id).1 = status) ->
  Run.status run <> "completed" ->
  AIAssistant.poll format_exc json_loads str_last_error repr_function remote
    runs_retrieve runs_submit_tool_outputs fuel a thread_id r run = None.
Proof.
  intros Hc Hf He Hr Hremote. revert r run.
  induction fuel as [|fuel IH]; intros r run Hrun; cbn [AIAssistant.poll];
    destruct (String.eqb_spec (Run.status run) "completed") as [Hdone|_];
    try done.
  pose proof (Hremote r (Run.id run)) as Hstatus.
  destruct (runs_retrieve r thread_id (Run.id run)) as [run1 r1]. cbn in Hstatus.
  rewrite Hstatus.
  destruct (String.eqb_spec status "failed"); [done|].
  destruct (String.eqb_spec status "expired"); [done|].
  destruct (String.eqb_spec status "requires_action"); [done|].
  apply IH. by rewrite Hstatus.
Qed.

(** X15: when a fetched run requires action, the batch of
    [create_tool_outputs] is what is submitted, and a completed run given
    back by the submission ends the loop at once, without another fetch. *)
Theorem poll_submit_completes fuel a (thread_id : string) r run run1 r1 outs run2 r2 :
  Run.status run <> "completed" ->
  runs_retrieve r thread_id (Run.id run) = (run1, r1) ->
  Run.status run1 = "requires_action" ->
  AIAssistant.create_tool_outputs format_exc json_loads a run1 = Return outs ->
  runs_submit_tool_outputs r1 thread_id (Run.id run1) outs = (run2, r2) ->
  Run.status run2 = "completed" ->
  AIAssistant.poll format_exc json_loads str_last_error repr_function remote
    runs_retrieve runs_submit_tool_outputs (S fuel) a thread_id r run =
    Some (Return (run2, r2)).
Proof.
  intros Hrun Hget Hstatus Houts Hsubmit Hdone. cbn [AIAssistant.poll].
  destruct (String.eqb_spec (Run.status run) "completed") as [|_]; [done|].
  rewrite Hget, Hstatus. cbn. rewrite Houts, Hsubmit.
  destruct fuel; cbn [AIAssistant.poll]; by rewrite Hdone.
Qed.

(** X16: an exception of [create_tool_outputs] is not caught by the loop.
    When a pending call of a fetched run has arguments that cannot be
    turned into a [FunctionCall], the polling ends with that exception
    and nothing is submitted for the run. *)
Theorem poll_tool_outputs_failure fuel a (thread_id : string) r run run1 r1
    (before : list ToolCall.t) (t : ToolCall.t) (after : list ToolCall.t)
    (outs_before : list ToolOutput.t) e :
  Run.status run <> "completed" ->
  runs_retrieve r thread_id (Run.id run) = (run1, r1) ->
  Run.status run1 = "requires_action" ->
  Run.required_action run1 = Some (before ++ t :: after)%list ->
  AIAssistant.for_tools format_exc json_loads a before [] = Return outs_before ->
  AIAssistant.function_call_of json_loads t = Raise e ->
  AIAssistant.poll format_exc json_loads str_last_error repr_function remote
    runs_retrieve runs_submit_tool_outputs (S fuel) a thread_id r run = Some (Raise e).
Proof.
  intros Hrun Hget Hstatus Htools Hbefore Hfc. cbn [AIAssistant.poll].
  destruct (String.eqb_spec (Run.status run) "completed") as [|_]; [done|].
  rewrite Hget, Hstatus. cbn.
  by rewrite (create_tool_outputs_raises format_exc json_loads a run1 before t after
                outs_before e Htools Hbefore Hfc).
Qed.

(** X17: a run fetched as expired without required action ends the loop
    with the [AttributeError] of [get_required_functions_names], not with
    the [RuntimeError] of the expiry. *)
Theorem poll_expired_without_action fuel a (thread_id : string) r run run1 r1 :
  Run.status run <> "completed" ->
  runs_retrieve r thread_id (Run.id run) = (run1, r1) ->
  Run.status run1 = "expired" ->
  Run.required_action run1 = None ->
  exists e,
    exn_cls e = AttributeError /\
    AIAssistant.poll format_exc json_loads str_last_error repr_function remote
      runs_retrieve runs_submit_tool_outputs (S fuel) a thread_id r run = Some (Raise e).
Proof.
  intros Hrun Hget Hstatus Hnone. exists AIAssistant.no_required_action.
  split; [reflexivity|]. cbn [AIAssistant.poll].
  destruct (String.eqb_spec (Run.status run) "completed") as [|_]; [done|].
  rewrite Hget, Hstatus. cbn. unfold AIAssistant.get_required_functions_names.
  by rewrite Hnone.
Qed.

End MoreLoop.

Lemma poll_returns_completed_witness :
  Samples.poll 3 Samples.single "thread_1" [Samples.queued] Samples.queued =
    Some (Return (Samples.completed, [])) /\
  Run.status Samples.completed = "completed".
Proof.
  split; [reflexivity|].
  exact (poll_returns_completed Samples.format_exc Samples.json_loads
           Samples.str_last_error Samples.repr_function Samples.script
           Samples.runs_retrieve Samples.runs_submit_tool_outputs 3 Samples.single
           "thread_1" [Samples.queued] Samples.queued Samples.completed [] eq_refl).
Defined.

Lemma poll_never_ends_witness :
  Samples.poll_against (fun _ _ _ => (Samples.cancelled, tt)) 7 Samples.single
    "thread_1" tt Samples.queued = None.
Proof.
  apply (poll_never_ends Samples.format_exc Samples.json_loads Samples.str_last_error
           Samples.repr_function unit (fun _ _ _ => (Samples.cancelled, tt))
           (fun _ _ _ _ => (Samples.cancelled, tt)) 7 Samples.single "thread_1" tt
           Samples.queued "cancelled"); try discriminate.
  reflexivity.
Defined.

Lemma poll_submit_completes_witness :
  Samples.poll 1 Samples.single "thread_1"
    [Samples.run_with "requires_action" [Samples.tool_unknown]; Samples.completed]
    Samples.queued = Some (Return (Samples.completed, [])).
Proof.
  apply (poll_submit_completes Samples.format_exc Samples.json_loads
           Samples.str_last_error Samples.repr_function Samples.script
           Samples.runs_retrieve Samples.runs_submit_tool_outputs 0 Samples.single
           "thread_1" _ Samples.queued
           (Samples.run_with "requires_action" [Samples.tool_unknown])
           [Samples.completed]
           [ToolOutput.mk "call_9" (PyStr "Function nope not found")]
           Samples.completed []); try reflexivity.
  discriminate.
Defined.

Lemma poll_tool_outputs_failure_witness :
  Samples.poll 1 Samples.single "thread_1"
    [Samples.run_with "requires_action" [Samples.tool_f; Samples.tool_broken]]
    Samples.queued =
    Some (Raise (mk_exn JSONDecodeError "Expecting value")).
Proof.
  apply (poll_tool_outputs_failure Samples.format_exc Samples.json_loads
           Samples.str_last_error Samples.repr_function Samples.script
           Samples.runs_retrieve Samples.runs_submit_tool_outputs 0 Samples.single
           "thread_1" _ Samples.queued
           (Samples.run_with "requires_action" [Samples.tool_f; Samples.tool_broken]) []
           [Samples.tool_f] Samples.tool_broken []
           [ToolOutput.mk "call_2"
              (PyStr ("Missing parameters" ++ nl ++ "Traceback (most recent call last):"
                        ++ nl ++ "Missing parameters" ++ nl))]);
    try reflexivity.
  discriminate.
Defined.

Lemma poll_expired_without_action_witness :
  exists e,
    exn_cls e = AttributeError /\
    Samples.poll 1 Samples.single "thread_1"
      [Run.mk "run_1" "expired" None None] Samples.queued = Some (Raise e).
Proof.
  apply (poll_expired_without_action Samples.format_exc Samples.json_loads
           Samples.str_last_error Samples.repr_function Samples.script
           Samples.runs_retrieve Samples.runs_submit_tool_outputs 0 Samples.single
           "thread_1" _ Samples.queued (Run.mk "run_1" "expired" None None) []);
    try reflexivity.
  discriminate.
Defined.

(** ** The tools declared and the functions found *)

Section Tools.

Local Open Scope list_scope.

Variable format_exc : exn -> string.

Implicit Types (a : AIAssistant.t) (fs : list Function.t) (fc : FunctionCall.t).

Lemma tool_function_name_function_tool (f : Function.t) :
  Session.tool_function_name (Session.function_tool f) = Some (Function.name f).
Proof.
  unfold Session.tool_function_name, Session.function_tool.
  rewrite lookup_insert_ne, lookup_insert_eq by done.
  unfold Function.to_dict. destruct (Function.parameters f); by rewrite lookup_insert_eq.
Qed.

Lemma omap_function_tools fs :
  omap Session.tool_function_name (map Session.function_tool fs) = map Function.name fs /\
  omap Session.tool_type (map Session.function_tool fs) = replicate (length fs) "function"%string.
Proof.
  induction fs as [|f fs [IH1 IH2]]; [done|].
  cbn [map length replicate]. unfold omap in *. cbn [list_omap].
  rewrite tool_function_name_function_tool. split; [by rewrite IH1|].
  by rewrite <- IH2.
Qed.

Lemma omap_builtin_tool (kind : string) :
  omap Session.tool_function_name [Session.builtin_tool kind] = [] /\
  omap Session.tool_type [Session.builtin_tool kind] = [kind].
Proof.
  unfold omap, Session.tool_function_name, Session.tool_type, Session.builtin_tool.
  cbn [list_omap]. rewrite lookup_insert_eq. by rewrite lookup_insert_ne, lookup_empty.
Qed.

Lemma init_tools_names_types (functions : option (list Function.t))
    (use_retrieval use_code_interpreter : bool) :
  let tools := Session.init_tools functions use_retrieval use_code_interpreter in
  omap Session.tool_function_name tools = map Function.name (default [] functions) /\
  omap Session.tool_type tools =
    replicate (length (default [] functions)) "function"%string
      ++ (if use_retrieval then ["retrieval"%string] else [])
      ++ (if use_code_interpreter then ["code_interpreter"%string] else []).
Proof.
  cbn zeta. unfold Session.init_tools.
  set (fts := match functions with Some (f :: fs) => map Session.function_tool (f :: fs)
                                 | _ => [] end).
  assert (fts = map Session.function_tool (default [] functions)) as ->.
  { subst fts. by destruct functions as [[|f fs]|]. }
  destruct (omap_function_tools (default [] functions)) as [Hnames Htypes].
  destruct (omap_builtin_tool "retrieval") as [Hr1 Hr2].
  destruct (omap_builtin_tool "code_interpreter") as [Hc1 Hc2].
  destruct use_retrieval, use_code_interpreter;
    rewrite ?omap_app, ?Hnames, ?Htypes, ?Hr1, ?Hr2, ?Hc1, ?Hc2, ?app_nil_r,
      <- ?app_assoc; split; reflexivity.
Qed.

(** X18: the tools declared at construction name exactly the registered
    functions, in the order of registration; the function tools come
    first, then ["retrieval"], then ["code_interpreter"], each only if its
    flag is set.  With [functions] left out or empty no function is
    declared. *)
Theorem init_tools_declares (functions : option (list Function.t))
    (use_retrieval use_code_interpreter : bool) :
  let tools := Session.init_tools functions use_retrieval use_code_interpreter in
  omap Session.tool_function_name tools = map Function.name (default [] functions) /\
  omap Session.tool_type tools =
    replicate (length (default [] functions)) "function"%string
      ++ (if use_retrieval then ["retrieval"%string] else [])
      ++ (if use_code_interpreter then ["code_interpreter"%string] else []).
Proof. apply init_tools_names_types. Qed.

Lemma for_functions_inv fs fc (b b' : bool) (acc outs : list ToolOutput.t) :
  AIAssistant.for_functions format_exc fs fc (b, acc) = Return (b', outs) ->
  exists vs,
    Forall2 (fun f v => Function.run_catch_exceptions format_exc f (Some fc) = Return v)
      (AIAssistant.named (FunctionCall.name fc) fs) vs /\
    outs = acc ++ map (ToolOutput.mk (FunctionCall.call_id fc)) vs /\
    b' = match vs with [] => b | _ => true end.
Proof.
  revert b acc. induction fs as [|f fs IH]; intros b acc; cbn [AIAssistant.for_functions].
  - intros [= <- <-]. exists []. split; [constructor|]. by rewrite app_nil_r.
  - unfold AIAssistant.named. rewrite filter_cons.
    destruct (String.eqb_spec (Function.name f) (FunctionCall.name fc)) as [Heq|Hne].
    + rewrite decide_True by done.
      destruct (Function.run_catch_exceptions format_exc f (Some fc)) as [v|e] eqn:Hv;
        [|discriminate].
      cbn. intros H. apply IH in H as (vs & Hvs & -> & ->).
      exists (v :: vs). split; [by constructor|]. rewrite <- app_assoc. split; [done|].
      by destruct vs.
    + rewrite decide_False by done. apply IH.
Qed.

(** X19: a call that names a function declared at construction is never
    answered "not found" by default: whenever its outputs are produced,
    the first of them is the result of [run_catch_exceptions] on a
    registered function of that name. *)
Theorem declared_function_is_run a fc (use_retrieval use_code_interpreter : bool)
    (acc outs : list ToolOutput.t) :
  FunctionCall.name fc ∈
    omap Session.tool_function_name
      (Session.init_tools (Some (AIAssistant.functions a)) use_retrieval
         use_code_interpreter) ->
  AIAssistant.dispatch format_exc a fc acc = Return outs ->
  exists f v rest,
    f ∈ AIAssistant.functions a /\
    Function.name f = FunctionCall.name fc /\
    Function.run_catch_exceptions format_exc f (Some fc) = Return v /\
    outs = acc ++ ToolOutput.mk (FunctionCall.call_id fc) v :: rest.
Proof.
  intros Hdeclared.
  destruct (init_tools_names_types (Some (AIAssistant.functions a)) use_retrieval
              use_code_interpreter) as [Hnames _].
  cbn zeta in Hnames. rewrite Hnames in Hdeclared. cbn [default] in Hdeclared.
  apply list_elem_of_fmap in Hdeclared as (g & Hg & Hin).
  unfold AIAssistant.dispatch.
  destruct (AIAssistant.for_functions _ _ _ _) as [[b' outs']|e] eqn:Hloop; [|discriminate].
  apply for_functions_inv in Hloop as (vs & Hvs & -> & ->).
  assert (g ∈ AIAssistant.named (FunctionCall.name fc) (AIAssistant.functions a)) as Hnamed
    by (by apply list_elem_of_filter).
  destruct (AIAssistant.named (FunctionCall.name fc) (AIAssistant.functions a))
    as [|f fs'] eqn:E; [by apply elem_of_nil in Hnamed|].
  apply Forall2_cons_inv_l in Hvs as (v & vs' & Hv & _ & ->).
  cbn. intros [= <-]. exists f, v, (map (ToolOutput.mk (FunctionCall.call_id fc)) vs').
  assert (f ∈ AIAssistant.named (FunctionCall.name fc) (AIAssistant.functions a)) as Hf
    by (rewrite E; left).
  apply list_elem_of_filter in Hf as [Hfn Hf]. done.
Qed.

End Tools.

Lemma init_tools_declares_witness :
  omap Session.tool_function_name
    (Session.init_tools (Some [Samples.f_x; Samples.f_plain]) false true) = ["f"; "g"] /\
  omap Session.tool_type
    (Session.init_tools (Some [Samples.f_x; Samples.f_plain]) false true) =
    ["function"; "function"; "code_interpreter"].
Proof.
  exact (init_tools_declares (Some [Samples.f_x; Samples.f_plain]) false true).
Defined.

Lemma declared_function_is_run_witness :
  exists f v rest,
    f ∈ AIAssistant.functions Samples.single /\
    Function.name f = "f" /\
    Function.run_catch_exceptions Samples.format_exc f (Some Samples.call_xz) = Return v /\
    [ToolOutput.mk "call_5" (PyStr "ok")] = ([] ++ ToolOutput.mk "call_5" v :: rest)%list.
Proof.
  apply (declared_function_is_run Samples.format_exc Samples.single Samples.call_xz
           false false [] [ToolOutput.mk "call_5" (PyStr "ok")]).
  - vm_compute. left.
  - reflexivity.
Defined.

(** ** The conversation *)

Section MoreConversation.

Local Open Scope list_scope.

Variable files_retrieve : string -> FileObject.t.
Variable files_content : string -> string.
Variable remote : Type.
Variable messages_list : remote -> string -> list ThreadMessage.t.

Implicit Types (a : AIAssistant.t) (r : remote) (conv : list Message.t).
Implicit Types (ms : list ThreadMessage.t) (outs : list (string * list FileWrite.t)).

Lemma append_formatted_rendered a (thread_id : string) ms outs conv
    (files : list FileWrite.t) :
  Forall2 (fun m out =>
             AIAssistant.format_message files_retrieve files_content a m = Return out)
    ms outs ->
  forall rest,
    Session.append_formatted files_retrieve files_content a thread_id (ms ++ rest) conv files =
      Session.append_formatted files_retrieve files_content a thread_id rest
        (conv ++ zip_with (fun m out => Session.message_of thread_id m out.1) ms outs)
        (files ++ concat (map snd outs)).
Proof.
  intros Hms. revert conv files.
  induction Hms as [|m [content written] ms outs Hm _ IH]; intros conv files rest.
  - cbn. by rewrite !app_nil_r.
  - cbn [app Session.append_formatted]. rewrite Hm, IH. cbn.
    by rewrite <- !app_assoc.
Qed.

(** X20: when every listed message can be rendered, [create_conversation]
    appends one message per listed message, in order, to the conversation
    it already holds, keeping role and file ids and taking the rendering
    as content, and then prints every message of the whole conversation,
    those of earlier calls included, twice. *)
Theorem create_conversation_appends a r (thread_id : string) conv outs :
  Forall2 (fun m out =>
             AIAssistant.format_message files_retrieve files_content a m = Return out)
    (messages_list r thread_id) outs ->
  let conv' :=
    conv ++ zip_with (fun m out =>
                        Message.mk thread_id (ThreadMessage.role m) out.1
                          (ThreadMessage.file_ids m))
              (messages_list r thread_id) outs in
  let lines := map (fun x => (Message.role x ++ ": " ++ Message.content x)%string) conv' in
  Session.create_conversation files_retrieve files_content remote messages_list
    a r thread_id conv =
    (Return (lines ++ lines), conv', concat (map snd outs)) /\
  length conv' = length conv + length (messages_list r thread_id).
Proof.
  intros Hms conv' lines. split.
  - unfold Session.create_conversation.
    rewrite <- (app_nil_r (messages_list r thread_id)) at 1.
    by rewrite (append_formatted_rendered a thread_id _ outs conv [] Hms).
  - subst conv'. rewrite length_app, length_zip_with.
    apply Forall2_length in Hms. lia.
Qed.

(** X21: at the first listed message that cannot be rendered
    [create_conversation] raises and prints nothing, but the messages
    rendered before it stay appended to the conversation. *)
Theorem create_conversation_stops a r (thread_id : string) conv before m after outs e :
  messages_list r thread_id = before ++ m :: after ->
  Forall2 (fun m' out =>
             AIAssistant.format_message files_retrieve files_content a m' = Return out)
    before outs ->
  AIAssistant.format_message files_retrieve files_content a m = Raise e ->
  Session.create_conversation files_retrieve files_content remote messages_list
    a r thread_id conv =
    (Raise e,
     conv ++ zip_with (fun m' out =>
                         Message.mk thread_id (ThreadMessage.role m') out.1
                           (ThreadMessage.file_ids m'))
               before outs,
     concat (map snd outs)).
Proof.
  intros Hlist Hbefore Hm. unfold Session.create_conversation.
  rewrite Hlist, (append_formatted_rendered a thread_id _ outs conv [] Hbefore).
  cbn [Session.append_formatted]. by rewrite Hm.
Qed.

End MoreConversation.

Lemma create_conversation_appends_witness :
  Session.create_conversation Samples.files_retrieve Samples.files_content
    Samples.script Samples.messages_list Samples.single [] "thread_1"
    [Message.mk "thread_1" "user" "Hello" []] =
    (Return ["user: Hello"; "assistant: Done." ++ nl; "user: Hello"; "assistant: Done." ++ nl],
     [Message.mk "thread_1" "user" "Hello" [];
      Message.mk "thread_1" "assistant" ("Done." ++ nl) []],
     []).
Proof.
  exact (proj1 (create_conversation_appends Samples.files_retrieve Samples.files_content
                  Samples.script Samples.messages_list Samples.single [] "thread_1"
                  [Message.mk "thread_1" "user" "Hello" []] [("Done." ++ nl, [])]
                  ltac:(repeat constructor))).
Defined.

Lemma create_conversation_stops_witness :
  Session.create_conversation Samples.files_retrieve Samples.files_content
    unit (fun _ _ => [Samples.plain_message; Samples.image_message; Samples.plain_message])
    Samples.single tt "thread_1" [] =
    (Raise (mk_exn AttributeError
              "'MessageContentImageFile' object has no attribute 'annotations'"),
     [Message.mk "thread_1" "assistant" ("Done." ++ nl) []],
     []).
Proof.
  exact (create_conversation_stops Samples.files_retrieve Samples.files_content
           unit (fun _ _ => [Samples.plain_message; Samples.image_message;
                             Samples.plain_message])
           Samples.single tt "thread_1" [] [Samples.plain_message] Samples.image_message
           [Samples.plain_message] [("Done." ++ nl, [])] _
           eq_refl ltac:(repeat constructor) eq_refl).
Defined.

(** ** The chat loop *)

Section MoreChat.

Local Open Scope list_scope.

Variable format_exc : exn -> string.
Variable json_loads : string -> outcome pyval.
Variable files_retrieve : string -> FileObject.t.
Variable files_content : string -> string.
Variable str_last_error : option LastError.t -> string.
Variable repr_function : ToolFunction.t -> string.
Variable remote : Type.
Variable messages_create :
  remote -> string -> string -> string -> list string -> remote.
Variable messages_list : remote -> string -> list ThreadMessage.t.
Variable runs_create : remote -> string -> string -> option string -> Run.t * remote.
Variable runs_retrieve : remote -> string -> string -> Run.t * remote.
Variable runs_submit_tool_outputs :
  remote -> string -> string -> list ToolOutput.t -> Run.t * remote.
Variable threads_create : remote -> string * remote.
Variable assistants_files_delete : remote -> string -> string -> remote.
Variable threads_delete : remote -> string -> remote.
Variable assistants_delete : remote -> string -> remote.

Implicit Types (a : AIAssistant.t) (r : remote) (fuel : nat).
Implicit Types (file_ids : option (list string)).

(** [create_response_in] is [create_response] with the state kept. *)
Lemma create_response_in_result fuel a r (thread_id content : string) file_ids
    (run_instructions : option string) :
  AIAssistant.create_response format_exc json_loads files_retrieve files_content
    str_last_error repr_function remote messages_create messages_list runs_create
    runs_retrieve runs_submit_tool_outputs fuel a r thread_id content file_ids
    run_instructions =
    (fmap (M:=outcome) (fun x : string * list FileWrite.t * remote => x.1)) <$>
      Session.create_response_in format_exc json_loads files_retrieve files_content
        str_last_error repr_function remote messages_create messages_list runs_create
        runs_retrieve runs_submit_tool_outputs fuel a r thread_id content file_ids
        run_instructions.
Proof.
  unfold AIAssistant.create_response, Session.create_response_in.
  destruct (runs_create _ _ _ _) as [run r1].
  destruct (AIAssistant.poll _ _ _ _ _ _ _ _ _ _ _ _) as [[[run' r2]|e]|]; try reflexivity.
  cbn. destruct (AIAssistant.extract_run_message _ _ _ _ _ _ _ _) as [[text files]|e];
    reflexivity.
Qed.

Lemma chat_loop_farewell fuel a (thread_id : string) file_ids
    (pre : list string) (word : string) (post : list string)
    (st : Session.chat_end remote) messages written r1 :
  Forall (fun line => Session.is_farewell line = false) pre ->
  Session.is_farewell word = true ->
  Session.answers format_exc json_loads files_retrieve files_content str_last_error
    repr_function remote messages_create messages_list runs_create runs_retrieve
    runs_submit_tool_outputs fuel a thread_id file_ids (pre ++ [word])
    (Session.service remote st) = Some (Return (messages, written, r1)) ->
  Session.chat_loop format_exc json_loads files_retrieve files_content str_last_error
    repr_function remote messages_create messages_list runs_create runs_retrieve
    runs_submit_tool_outputs fuel a thread_id file_ids (pre ++ word :: post) st =
    Some (Return (Session.mk_chat_end remote r1
                    (Session.printed remote st ++
                       concat (map (fun message =>
                                      [Session.prompt; Session.reply_line message])
                                 messages))
                    (Session.files remote st ++ written) post)).
Proof.
  intros Hpre Hword. revert st messages written.
  induction Hpre as [|line pre Hline _ IH]; intros st messages written;
    cbn [app Session.answers Session.chat_loop];
    destruct (Session.create_response_in _ _ _ _ _ _ _ _ _ _ _ _ _ _ _ _ _ _ _)
      as [[[[message w] r']|e]|]; try discriminate.
  - intros [= <- <- <-]. rewrite Hword. cbn. by rewrite app_nil_r.
  - rewrite Hline.
    destruct (Session.answers _ _ _ _ _ _ _ _ _ _ _ _ _ _ _ _ _ r')
      as [[[[messages' written'] r2]|e]|] eqn:Hrest; try discriminate.
    intros [= <- <- <-].
    pose proof (IH (Session.mk_chat_end remote r'
                      (Session.printed remote st ++ [Session.prompt; Session.reply_line message])
                      (Session.files remote st ++ w) (pre ++ word :: post))
                  _ _ Hrest) as Hloop.
    rewrite Hloop. cbn. by rewrite <- !app_assoc.
Qed.

(** X22: [chat] answers every line typed up to and including the first
    ["bye"] or ["exit"], so the farewell itself is sent to the assistant
    and answered; the lines after it are not read.  The terminal shows the
    prompt and the reply for each line answered, and the clean-up runs on
    the service as the last reply left it. *)
Theorem chat_answers_farewell fuel a (auto_delete : bool) r file_ids
    (pre : list string) (word : string) (post : list string)
    (thread_id : string) r0 messages written r1 :
  Forall (fun line => line <> "bye"%string /\ line <> "exit"%string) pre ->
  word = "bye"%string \/ word = "exit"%string ->
  threads_create r = (thread_id, r0) ->
  Session.answers format_exc json_loads files_retrieve files_content str_last_error
    repr_function remote messages_create messages_list runs_create runs_retrieve
    runs_submit_tool_outputs fuel a thread_id file_ids (pre ++ [word]) r0 =
    Some (Return (messages, written, r1)) ->
  Session.chat format_exc json_loads files_retrieve files_content str_last_error
    repr_function remote messages_create messages_list runs_create runs_retrieve
    runs_submit_tool_outputs threads_create assistants_files_delete threads_delete
    assistants_delete fuel a auto_delete r file_ids (pre ++ word :: post) =
    Some (Return (Session.mk_chat_end remote
                    (Session.clean_up remote assistants_files_delete threads_delete
                       assistants_delete a auto_delete file_ids thread_id r1)
                    (concat (map (fun message =>
                                    [Session.prompt; Session.reply_line message])
                               messages))
                    written post)) /\
  length messages = S (length pre).
Proof.
  intros Hpre Hword Hthread Hanswers. split.
  - unfold Session.chat. rewrite Hthread.
    rewrite (chat_loop_farewell fuel a thread_id file_ids pre word post
               (Session.mk_chat_end remote r0 [] [] (pre ++ word :: post))
               messages written r1); [reflexivity | | | exact Hanswers].
    + eapply Forall_impl; [exact Hpre|]. intros line [Hb He]. unfold Session.is_farewell.
      apply orb_false_iff. split; by apply String.eqb_neq.
    + unfold Session.is_farewell. by destruct Hword as [-> | ->].
  - clear Hpre Hword Hthread. revert r0 r1 messages written Hanswers.
    induction pre as [|line pre IH]; intros r0 r1 messages written;
      cbn [app Session.answers];
      destruct (Session.create_response_in _ _ _ _ _ _ _ _ _ _ _ _ _ _ _ _ _ _ _)
        as [[[[message w] r']|e]|]; try discriminate.
    + by intros [= <- _ _].
    + destruct (Session.answers _ _ _ _ _ _ _ _ _ _ _ _ _ _ _ _ _ r')
        as [[[[messages' written'] r2]|e]|] eqn:Hrest; try discriminate.
      intros [= <- _ _]. cbn. f_equal. exact (IH _ _ _ _ Hrest).
Qed.

Lemma chat_loop_end_of_input fuel a (thread_id : string) file_ids (inputs : list string) :
  Forall (fun line => Session.is_farewell line = false) inputs ->
  forall (st : Session.chat_end remote) result,
    Session.answers format_exc json_loads files_retrieve files_content str_last_error
      repr_function remote messages_create messages_list runs_create runs_retrieve
      runs_submit_tool_outputs fuel a thread_id file_ids inputs
      (Session.service remote st) = Some (Return result) ->
    Session.chat_loop format_exc json_loads files_retrieve files_content str_last_error
      repr_function remote messages_create messages_list runs_create runs_retrieve
      runs_submit_tool_outputs fuel a thread_id file_ids inputs st =
      Some (Raise (mk_exn (OtherException "EOFError") "EOF when reading a line")).
Proof.
  induction 1 as [|line inputs Hline _ IH]; intros st result;
    cbn [Session.answers Session.chat_loop]; [reflexivity|].
  destruct (Session.create_response_in _ _ _ _ _ _ _ _ _ _ _ _ _ _ _ _ _ _ _)
    as [[[[message w] r']|e]|]; try discriminate.
  destruct (Session.answers _ _ _ _ _ _ _ _ _ _ _ _ _ _ _ _ _ r')
    as [[[[messages' written'] r2]|e]|] eqn:Hrest; try discriminate.
  intros _. rewrite Hline.
  exact (IH (Session.mk_chat_end remote r'
               (Session.printed remote st ++ [Session.prompt; Session.reply_line message])
               (Session.files remote st ++ w) inputs) _ Hrest).
Qed.

(** X23: when no line typed is ["bye"] or ["exit"] and every line is
    answered, [chat] ends with the [EOFError] of [input], and the clean-up
    is not reached. *)
Theorem chat_without_farewell fuel a (auto_delete : bool) r file_ids
    (inputs : list string) (thread_id : string) r0 result :
  Forall (fun line => line <> "bye"%string /\ line <> "exit"%string) inputs ->
  threads_create r = (thread_id, r0) ->
  Session.answers format_exc json_loads files_retrieve files_content str_last_error
    repr_function remote messages_create messages_list runs_create runs_retrieve
    runs_submit_tool_outputs fuel a thread_id file_ids inputs r0 = Some (Return result) ->
  Session.chat format_exc json_loads files_retrieve files_content str_last_error
    repr_function remote messages_create messages_list runs_create runs_retrieve
    runs_submit_tool_outputs threads_create assistants_files_delete threads_delete
    assistants_delete fuel a auto_delete r file_ids inputs =
    Some (Raise (mk_exn (OtherException "EOFError") "EOF when reading a line")).
Proof.
  intros Hinputs Hthread Hanswers. unfold Session.chat. rewrite Hthread.
  rewrite (chat_loop_end_of_input fuel a thread_id file_ids inputs) with (result := result);
    [reflexivity | | exact Hanswers].
  eapply Forall_impl; [exact Hinputs|]. intros line [Hb He]. unfold Session.is_farewell.
  apply orb_false_iff. split; by apply String.eqb_neq.
Qed.

End MoreChat.

Lemma chat_answers_farewell_witness :
  Samples.chat 2 Samples.single true [] None ["hi"; "bye"; "more"] =
    Some (Return (Session.mk_chat_end Samples.script []
                    [Session.prompt; Session.reply_line (nl ++ "assistant: Done." ++ nl);
                     Session.prompt; Session.reply_line (nl ++ "assistant: Done." ++ nl)]
                    [] ["more"])).
Proof.
  exact (proj1 (chat_answers_farewell Samples.format_exc Samples.json_loads
                  Samples.files_retrieve Samples.files_content Samples.str_last_error
                  Samples.repr_function Samples.script Samples.messages_create
                  Samples.messages_list Samples.runs_create Samples.runs_retrieve
                  Samples.runs_submit_tool_outputs Samples.threads_create
                  Samples.forget_file Samples.forget Samples.forget
                  2 Samples.single true [] None ["hi"] "bye" ["more"] "thread_1" []
                  [nl ++ "assistant: Done." ++ nl; nl ++ "assistant: Done." ++ nl] [] []
                  ltac:(repeat constructor; discriminate) (or_introl eq_refl)
                  eq_refl eq_refl)).
Defined.

Lemma chat_without_farewell_witness :
  Samples.chat 2 Samples.single true [] None ["hi"; "there"] =
    Some (Raise (mk_exn (OtherException "EOFError") "EOF when reading a line")).
Proof.
  exact (chat_without_farewell Samples.format_exc Samples.json_loads
           Samples.files_retrieve Samples.files_content Samples.str_last_error
           Samples.repr_function Samples.script Samples.messages_create
           Samples.messages_list Samples.runs_create Samples.runs_retrieve
           Samples.runs_submit_tool_outputs Samples.threads_create
           Samples.forget_file Samples.forget Samples.forget
           2 Samples.single true [] None ["hi"; "there"] "thread_1" []
           ([nl ++ "assistant: Done." ++ nl; nl ++ "assistant: Done." ++ nl], [], [])
           ltac:(repeat constructor; discriminate) eq_refl eq_refl).
Defined.

(** ** The two functions of run_query.py *)

Section MoreRunQuery.

Variable format_exc : exn -> string.
Variable keyword_error : list string -> gmap string pyval -> string.
Variable join_error : list pyval -> string.
Variable table_statements : pyval -> outcome (list pyval).
Variable query_rows : pyval -> pyval -> outcome (list string).

Implicit Types (fc : FunctionCall.t) (d : gmap string pyval).

Lemma bind_keywords_unexpected (names : list string) d (k : string) :
  is_Some (d !! k) -> k ∉ names ->
  RunQuery.bind_keywords keyword_error names d =
    Raise (mk_exn TypeError (keyword_error names d)).
Proof.
  intros Hk Hnot. unfold RunQuery.bind_keywords.
  rewrite bool_decide_eq_false_2; [reflexivity|].
  intros Hsub. apply Hnot. apply elem_of_dom in Hk. apply Hsub in Hk.
  by apply elem_of_list_to_set in Hk.
Qed.

Lemma join_values_strings (sep : string) (parts : list string) :
  RunQuery.join_values join_error sep (map PyStr parts) = Return (join sep parts).
Proof.
  unfold RunQuery.join_values.
  assert (mapM (fun v => match v with PyStr s => Some s | _ => None end)
            (map PyStr parts) = Some parts) as ->; [|reflexivity].
  induction parts as [|s parts IH]; [reflexivity|].
  cbn [map mapM]. rewrite IH. reflexivity.
Qed.

(** X24: [get_db_schema] called with the single key [sql_path] returns the
    table statements of that database joined by blank lines, and so the
    empty string for a database without table. *)
Theorem get_db_schema_output fc (sql_path : pyval) (statements : list string) :
  FunctionCall.arguments fc = Some (<["sql_path" := sql_path]> ∅) ->
  table_statements sql_path = Return (map PyStr statements) ->
  Function.run_catch_exceptions format_exc
    (RunQuery.GetDBSchema keyword_error join_error table_statements) (Some fc) =
    Return (PyStr (join (nl ++ nl) statements)) /\
  (statements = [] ->
   Function.run_catch_exceptions format_exc
     (RunQuery.GetDBSchema keyword_error join_error table_statements) (Some fc) =
     Return (PyStr "")).
Proof.
  intros Hd Hdb.
  assert (<["sql_path" := sql_path]> (∅ : gmap string pyval) <> ∅) as Hne.
  { intros E. apply (f_equal (fun m => m !! "sql_path")) in E.
    by rewrite lookup_insert_eq, lookup_empty in E. }
  assert (forall p, p ∈ [Property.mk "sql_path" "string" true
                           (Some "The path to the SQLite database")] ->
            Property.required p = true ->
            is_Some ((<["sql_path" := sql_path]> (∅ : gmap string pyval))
                       !! Property.name p)) as Hall.
  { intros p Hp _. apply list_elem_of_singleton in Hp as ->. cbn.
    rewrite lookup_insert_eq. by eexists. }
  assert (RunQuery.bind_keywords keyword_error ["sql_path"]
            (<["sql_path" := sql_path]> ∅) = Return [sql_path]) as Hbind.
  { unfold RunQuery.bind_keywords. rewrite bool_decide_eq_true_2.
    - cbn [mapM]. by rewrite lookup_insert_eq.
    - rewrite dom_insert_L, dom_empty_L. set_solver. }
  assert (Function.run_catch_exceptions format_exc
            (RunQuery.GetDBSchema keyword_error join_error table_statements) (Some fc) =
          Return (PyStr (join (nl ++ nl) statements))) as Hcatch.
  { unfold Function.run_catch_exceptions.
    rewrite (run_validated
               (RunQuery.GetDBSchema keyword_error join_error table_statements) fc _ _
               eq_refl ltac:(discriminate) Hd Hne Hall).
    cbn [Function.func RunQuery.GetDBSchema]. unfold RunQuery.get_db_schema_func.
    rewrite Hbind. cbn. rewrite Hdb. cbn. by rewrite join_values_strings. }
  split; [exact Hcatch|]. intros ->. exact Hcatch.
Qed.

(** X25: the two functions take no keyword beyond their parameters: a
    call that gives every parameter and one more key passes the validation
    of [run] and then fails in the call itself with a [TypeError], which
    [run_catch_exceptions] returns as text; the database is not opened. *)
Theorem undeclared_keyword_is_refused fc d (k : string) :
  FunctionCall.arguments fc = Some d ->
  is_Some (d !! k) ->
  (is_Some (d !! "sql_path") -> k <> "sql_path" ->
   Function.run_catch_exceptions format_exc
     (RunQuery.GetDBSchema keyword_error join_error table_statements) (Some fc) =
     Return (PyStr (keyword_error ["sql_path"] d ++ nl ++
                    format_exc (mk_exn TypeError (keyword_error ["sql_path"] d))))) /\
  (is_Some (d !! "query") -> is_Some (d !! "database") ->
   k <> "query" -> k <> "database" ->
   Function.run_catch_exceptions format_exc
     (RunQuery.RunSQLQuery keyword_error query_rows) (Some fc) =
     Return (PyStr (keyword_error ["query"; "database"] d ++ nl ++
                    format_exc (mk_exn TypeError
                                  (keyword_error ["query"; "database"] d))))).
Proof.
  intros Hd Hk.
  assert (d <> ∅) as Hne.
  { intros ->. rewrite lookup_empty in Hk. by destruct Hk. }
  split.
  - intros Hpath Hkp.
    apply (run_catch_exceptions_caught format_exc _ _
             (mk_exn TypeError (keyword_error ["sql_path"] d))); [|reflexivity].
    assert (forall p, p ∈ [Property.mk "sql_path" "string" true
                             (Some "The path to the SQLite database")] ->
              Property.required p = true -> is_Some (d !! Property.name p)) as Hall.
    { intros p Hp _. by apply list_elem_of_singleton in Hp as ->. }
    rewrite (run_validated
               (RunQuery.GetDBSchema keyword_error join_error table_statements) fc _ d
               eq_refl ltac:(discriminate) Hd Hne Hall).
    cbn [Function.func RunQuery.GetDBSchema]. unfold RunQuery.get_db_schema_func.
    rewrite (bind_keywords_unexpected _ d k Hk); [reflexivity|].
    intros Hin. by apply list_elem_of_singleton in Hin.
  - intros Hq Hdb Hkq Hkd.
    apply (run_catch_exceptions_caught format_exc _ _
             (mk_exn TypeError (keyword_error ["query"; "database"] d))); [|reflexivity].
    assert (forall p, p ∈ [Property.mk "query" "string" true (Some "The SQL query to run");
                           Property.mk "database" "string" true
                             (Some "The database to run the query on")] ->
              Property.required p = true -> is_Some (d !! Property.name p)) as Hall.
    { intros p Hp _. apply elem_of_cons in Hp as [->|Hp]; [done|].
      by apply list_elem_of_singleton in Hp as ->. }
    rewrite (run_validated (RunQuery.RunSQLQuery keyword_error query_rows) fc _ d
               eq_refl ltac:(discriminate) Hd Hne Hall).
    cbn [Function.func RunQuery.RunSQLQuery]. unfold RunQuery.run_sql_query_func.
    rewrite (bind_keywords_unexpected _ d k Hk); [reflexivity|].
    intros Hin. apply elem_of_cons in Hin as [->|Hin]; [done|].
    by apply list_elem_of_singleton in Hin.
Qed.


End MoreRunQuery.

Lemma get_db_schema_output_witness :
  Function.run_catch_exceptions Samples.format_exc
    (RunQuery.GetDBSchema Samples.keyword_error Samples.join_error Samples.no_table)
    (Some (FunctionCall.mk "call_1" "get_db_schema"
             (Some (<["sql_path" := PyStr "./test.db"]> ∅)))) = Return (PyStr "").
Proof.
  exact (proj2 (get_db_schema_output Samples.format_exc Samples.keyword_error
                  Samples.join_error Samples.no_table
                  (FunctionCall.mk "call_1" "get_db_schema"
                     (Some (<["sql_path" := PyStr "./test.db"]> ∅)))
                  (PyStr "./test.db") [] eq_refl eq_refl) eq_refl).
Defined.

Lemma undeclared_keyword_is_refused_witness :
  Function.run_catch_exceptions Samples.format_exc
    (RunQuery.GetDBSchema Samples.keyword_error Samples.join_error Samples.no_table)
    (Some (FunctionCall.mk "call_1" "get_db_schema"
             (Some (<["sql_path" := PyStr "./test.db"]> (<["mode" := PyStr "ro"]> ∅))))) =
    Return (PyStr ("func() got an unexpected keyword argument" ++ nl ++
                   Samples.format_exc
                     (mk_exn TypeError "func() got an unexpected keyword argument"))).
Proof.
  apply (proj1 (undeclared_keyword_is_refused Samples.format_exc Samples.keyword_error
                  Samples.join_error Samples.no_table Samples.no_row
                  (FunctionCall.mk "call_1" "get_db_schema"
                     (Some (<["sql_path" := PyStr "./test.db"]>
                            (<["mode" := PyStr "ro"]> ∅))))
                  (<["sql_path" := PyStr "./test.db"]> (<["mode" := PyStr "ro"]> ∅))
                  "mode" eq_refl ltac:(by eexists))).
  - by eexists.
  - discriminate.
Defined.

